(** * cn-holiday-sqlgen: the working-calendar generator of [main.py]

    A shallow embedding of the classification and generation pipeline:
    [DateTypeJudge], [CalendarGenerator.get_whole_year], [generate_sql],
    [generate], [_save_files] and [main].

    Conventions.
    - Python [str] values are byte strings (their UTF-8 encoding); the
      apostrophe is the byte 39 and occurs in an encoding only as itself.
      A digit is an ASCII digit: date strings written with other decimal
      digits, which [strptime] would also read, are outside the model.
    - A call either returns, raises, or (for the [while] loop, which is
      run on fuel) is cut off: see [outcome].
    - The holiday oracle ([chinese_calendar]) is a record of three total
      functions: the calendar within the years it has data for.  The
      [NotImplementedError] it raises outside them is not modelled.
    - [date_types] maps a role to a mapping from field names to text;
      entries of another shape (null, a scalar), on which the subscript
      of [DateTypeJudge.__init__] raises [TypeError], are outside the model.
    - The file system is a finite map from paths to contents and a set of
      directories made; creating a directory and writing a file always
      succeed.
    - [pathlib] and the csv writer of [pandas] are parameters of the
      functions that use them.
    - Calls to [logger] do not influence control flow or the files written
      and are left out. *)

From Stdlib Require Import ZArith String Ascii List Lia Bool DecimalString Sorted.
From stdpp Require Import base option gmap strings.

Import ListNotations.
Local Open Scope string_scope.
Local Open Scope list_scope.
Local Open Scope Z_scope.

(** ** Outcomes of a call *)

(** The exceptions the program can raise.  Those raised by the standard
    library carry the offending arguments instead of a rendered message. *)
Inductive exn : Type :=
  | ValueError (msg : string)          (* raise ValueError(msg), line 149 *)
  | KeyError (key : string)            (* d[key] on a dict without key *)
  | StrptimeError (data fmt : string)  (* the ValueError of strptime *)
  | DateFieldError (y m d : Z)         (* the ValueError of datetime.date *)
  | DateOverflow                       (* the OverflowError of date + timedelta *)
  | IntOverflow (n : Z).               (* the OverflowError of an int beyond a C int *)

Inductive outcome (A : Type) : Type :=
  | Return (a : A)
  | Raise (e : exn)
  | OutOfFuel.

Arguments Return {A} a.
Arguments Raise {A} e.
Arguments OutOfFuel {A}.

(** Sequencing: an exception or a cut-off ends the computation. *)
#[global] Instance outcome_bind : MBind outcome := fun A B k x =>
  match x with
  | Return a => k a
  | Raise e => Raise e
  | OutOfFuel => OutOfFuel
  end.

#[global] Instance outcome_ret : MRet outcome := fun A a => Return a.

(** ** [datetime.date] *)

Module Date.

Definition MINYEAR : Z := 1.
Definition MAXYEAR : Z := 9999.

Record date : Type := mk { year : Z; month : Z; day : Z }.

Definition is_leap (y : Z) : bool :=
  (y mod 4 =? 0) && (negb (y mod 100 =? 0) || (y mod 400 =? 0)).

Definition DAYS_IN_MONTH (m : Z) : Z :=
  if (m =? 2) then 28
  else if (m =? 4) || (m =? 6) || (m =? 9) || (m =? 11) then 30
  else 31.

Definition days_in_month (y m : Z) : Z :=
  if (m =? 2) && is_leap y then 29 else DAYS_IN_MONTH m.

(** The field check of the constructor. *)
Definition valid (d : date) : bool :=
  (MINYEAR <=? year d) && (year d <=? MAXYEAR) &&
  (1 <=? month d) && (month d <=? 12) &&
  (1 <=? day d) && (day d <=? days_in_month (year d) (month d)).

(** The arguments of the constructor are read as C ints. *)
Definition fits_c_int (n : Z) : bool := (-2147483648 <=? n) && (n <=? 2147483647).

(** [datetime.date(y, m, d)]: [OverflowError] for an argument that is no C
    int, [ValueError] for fields that make no date. *)
Definition new (y m d : Z) : outcome date :=
  if negb (fits_c_int y) then Raise (IntOverflow y)
  else if negb (fits_c_int m) then Raise (IntOverflow m)
  else if negb (fits_c_int d) then Raise (IntOverflow d)
  else if valid (mk y m d) then Return (mk y m d)
  else Raise (DateFieldError y m d).

(** Dates compare as the tuples (year, month, day). *)
Definition compare (a b : date) : comparison :=
  match year a ?= year b with
  | Eq => match month a ?= month b with
          | Eq => day a ?= day b
          | c => c
          end
  | c => c
  end.

Definition le (a b : date) : bool :=
  match compare a b with Gt => false | _ => true end.

Definition lt (a b : date) : bool :=
  match compare a b with Lt => true | _ => false end.

(** The day after and the day before, in the proleptic Gregorian calendar;
    [date.max] has no successor and [date.min] no predecessor.  The library
    adds days through day ordinals; here the same date is reached day by
    day. *)
Definition tomorrow (d : date) : outcome date :=
  if day d <? days_in_month (year d) (month d) then
    Return (mk (year d) (month d) (day d + 1))
  else if month d <? 12 then Return (mk (year d) (month d + 1) 1)
  else if year d <? MAXYEAR then Return (mk (year d + 1) 1 1)
  else Raise DateOverflow.

Definition yesterday (d : date) : outcome date :=
  if 1 <? day d then Return (mk (year d) (month d) (day d - 1))
  else if 1 <? month d then
    Return (mk (year d) (month d - 1) (days_in_month (year d) (month d - 1)))
  else if MINYEAR <? year d then Return (mk (year d - 1) 12 31)
  else Raise DateOverflow.

Fixpoint iterate (n : nat) (f : date -> outcome date) (d : date) : outcome date :=
  match n with
  | O => Return d
  | S k => d' ← f d; iterate k f d'
  end.

(** [datetime.timedelta(days=n)] *)
Record timedelta : Type := mk_timedelta { days : Z }.

(** [d + delta]: the date [days delta] days away, [OverflowError] when
    that leaves [date.min .. date.max]. *)
Definition add (d : date) (delta : timedelta) : outcome date :=
  if 0 <=? days delta then iterate (Z.to_nat (days delta)) tomorrow d
  else iterate (Z.to_nat (- days delta)) yesterday d.

End Date.

Import Date (date, timedelta).

(** ** Formatting and parsing dates with the format [%Y-%m-%d] *)

Definition digit_char (n : Z) : ascii := ascii_of_N (Z.to_N (48 + n)).

Definition digit_val (c : ascii) : option Z :=
  let n := Z.of_N (N_of_ascii c) in
  if (48 <=? n) && (n <=? 57) then Some (n - 48) else None.

(** [%m] and [%d] print two decimal digits, padded with a zero (the
    fields of a date are within 1..12 and 1..31). *)
Definition two_digits (n : Z) : string :=
  String (digit_char (n / 10)) (String (digit_char (n mod 10)) "").

Definition four_digits (n : Z) : string :=
  String (digit_char (n / 1000)) (String (digit_char (n / 100 mod 10))
    (two_digits (n mod 100))).

(** [%Y] prints the year (1..9999) as the C library does: CPython on
    Linux (glibc) gives its decimal digits without padding, so four digits
    from the year 1000 on and fewer below. *)
Definition year_digits (y : Z) : string :=
  if y <? 10 then String (digit_char y) ""
  else if y <? 100 then two_digits y
  else if y <? 1000 then String (digit_char (y / 100)) (two_digits (y mod 100))
  else four_digits y.

(** [d.strftime("%Y-%m-%d")] *)
Definition strftime (d : date) : string :=
  year_digits (Date.year d) +:+ "-" +:+ two_digits (Date.month d) +:+ "-" +:+
  two_digits (Date.day d).

(** [strptime] turns the format into the regular expression
    [(?P<Y>\d\d\d\d)-(?P<m>1[0-2]|0[1-9]|[1-9])-(?P<d>3[0-1]|[1-2]\d|0[1-9]|[1-9]| [1-9])]
    and matches it at the start of the data.  Each group below lists the
    ways it can match a prefix, in the order the matcher tries them, as
    pairs of the value read and the rest of the data. *)
Definition in_range (lo hi : Z) (c : ascii) : option Z :=
  match digit_val c with
  | Some v => if (lo <=? v) && (v <=? hi) then Some v else None
  | None => None
  end.

Definition re_Y (s : string) : list (Z * string) :=
  match s with
  | String a (String b (String c (String d rest))) =>
      match digit_val a, digit_val b, digit_val c, digit_val d with
      | Some va, Some vb, Some vc, Some vd =>
          [(1000 * va + 100 * vb + 10 * vc + vd, rest)]
      | _, _, _, _ => []
      end
  | _ => []
  end.

(** One alternative made of two character classes. *)
Definition alt2 (lo1 hi1 lo2 hi2 : Z) (s : string) : list (Z * string) :=
  match s with
  | String a (String b rest) =>
      match in_range lo1 hi1 a, in_range lo2 hi2 b with
      | Some va, Some vb => [(10 * va + vb, rest)]
      | _, _ => []
      end
  | _ => []
  end.

(** One alternative made of one character class. *)
Definition alt1 (lo hi : Z) (s : string) : list (Z * string) :=
  match s with
  | String a rest =>
      match in_range lo hi a with
      | Some va => [(va, rest)]
      | None => []
      end
  | _ => []
  end.

(** The alternative [ [1-9]]: a space, then a digit. *)
Definition alt_space (s : string) : list (Z * string) :=
  match s with
  | String " " rest => alt1 1 9 rest
  | _ => []
  end.

Definition re_m (s : string) : list (Z * string) :=
  alt2 1 1 0 2 s ++ alt2 0 0 1 9 s ++ alt1 1 9 s.

Definition re_d (s : string) : list (Z * string) :=
  alt2 3 3 0 1 s ++ alt2 1 2 0 9 s ++ alt2 0 0 1 9 s ++ alt1 1 9 s ++ alt_space s.

Definition re_lit (c : ascii) (s : string) : option string :=
  match s with
  | String a rest => if Ascii.eqb a c then Some rest else None
  | EmptyString => None
  end.

(** The first alternative after which the rest of the pattern matches. *)
Fixpoint first_match {A B : Type} (alts : list A) (k : A -> option B) : option B :=
  match alts with
  | [] => None
  | a :: alts' => match k a with
                  | Some b => Some b
                  | None => first_match alts' k
                  end
  end.

Definition re_match (data : string) : option (Z * Z * Z * string) :=
  first_match (re_Y data) (fun '(y, s1) =>
    s2 ← re_lit "-" s1;
    first_match (re_m s2) (fun '(m, s3) =>
      s4 ← re_lit "-" s3;
      first_match (re_d s4) (fun '(d, s5) => Some (y, m, d, s5)))).

Definition FORMAT : string := "%Y-%m-%d".

(** [datetime.datetime.strptime(data, '%Y-%m-%d').date()]: no match and
    unconverted data left behind are errors of [strptime]; fields that
    match but make no date are refused by the date constructor. *)
Definition strptime (data : string) : outcome date :=
  match re_match data with
  | Some (y, m, d, "") => Date.new y m d
  | _ => Raise (StrptimeError data FORMAT)
  end.

(** ** [CalendarGenerator.get_whole_year] *)

(** The [while current <= end] loop. *)
Fixpoint whole_year_loop (fuel : nat) (end_ : date) (delta : timedelta)
    (current : date) (days : list string) : outcome (list string) :=
  match fuel with
  | O => OutOfFuel
  | S fuel' =>
      if Date.le current end_ then
        let days := days ++ [strftime current] in
        current ← Date.add current delta;
        whole_year_loop fuel' end_ delta current days
      else Return days
  end.

Definition get_whole_year (fuel : nat) (year : Z) : outcome (list string) :=
  begin ← Date.new year 1 1;
  end_ ← Date.new year 12 31;
  let delta := Date.mk_timedelta 1 in
  whole_year_loop fuel end_ delta begin [].

(** ** Configuration *)

(** The [Config] dataclass.  [date_types] is the nested mapping of the YAML
    document: role, then field ([code], [description]), then text. *)
Record Config : Type := mkConfig {
  table_name : string;
  target_year : Z;
  save_path : string;
  date_types : gmap string (gmap string string)
}.

(** [d[key]] on a dict *)
Definition getitem {V : Type} (d : gmap string V) (key : string) : outcome V :=
  match d !! key with
  | Some v => Return v
  | None => Raise (KeyError key)
  end.

(** ** [DateTypeJudge] *)

Record DateTypeJudge : Type := mkDateTypeJudge {
  judge_config : Config;
  workday_code : string;
  weekend_code : string;
  holiday_code : string;
  working_holiday_code : string
}.

(** [DateTypeJudge.__init__] *)
Definition DateTypeJudge_init (config : Config) : outcome DateTypeJudge :=
  workday ← getitem (date_types config) "workday";
  workday_code ← getitem workday "code";
  weekend ← getitem (date_types config) "weekend";
  weekend_code ← getitem weekend "code";
  holiday ← getitem (date_types config) "holiday";
  holiday_code ← getitem holiday "code";
  working_holiday ← getitem (date_types config) "working_holiday";
  working_holiday_code ← getitem working_holiday "code";
  Return (mkDateTypeJudge config workday_code weekend_code holiday_code
            working_holiday_code).

(** The interface of [chinese_calendar] that the program uses. *)
Record Oracle : Type := mkOracle {
  is_holiday : date -> bool;
  is_workday : date -> bool;
  get_holiday_detail : date -> bool * option string
}.

Definition UNMATCHED : string := "无法判断日期类型: ".

(** [DateTypeJudge.judge_date_type] *)
Definition judge_date_type (self : DateTypeJudge) (calendar : Oracle)
    (date_str : string) : outcome (string * string) :=
  date ← strptime date_str;
  if is_holiday calendar date then
    let '(on_holiday, holiday_name) := get_holiday_detail calendar date in
    match holiday_name with
    | Some name => Return (holiday_code self, name)
    | None => Return (weekend_code self, "")
    end
  else if is_workday calendar date then
    let '(on_holiday, holiday_name) := get_holiday_detail calendar date in
    match holiday_name with
    | Some name => Return (working_holiday_code self, name)
    | None => Return (workday_code self, "")
    end
  else Raise (ValueError (UNMATCHED +:+ date_str)).

(** ** [CalendarGenerator] *)

Record CalendarGenerator : Type := mkCalendarGenerator {
  config : Config;
  date_judge : DateTypeJudge
}.

(** [CalendarGenerator.__init__] *)
Definition CalendarGenerator_init (config : Config) : outcome CalendarGenerator :=
  date_judge ← DateTypeJudge_init config;
  Return (mkCalendarGenerator config date_judge).

(** [re.sub(r"'", "''", remark)] *)
Fixpoint escape_quotes (remark : string) : string :=
  match remark with
  | EmptyString => EmptyString
  | String c rest =>
      if Ascii.eqb c "'" then String "'" (String "'" (escape_quotes rest))
      else String c (escape_quotes rest)
  end.

(** [str(n)] for an [int], as an f-string renders it *)
Definition str_int (n : Z) : string := NilZero.string_of_int (Z.to_int n).

Definition LF : string := String (ascii_of_N 10) "".

(** [CalendarGenerator.generate_sql] *)
Definition generate_sql (self : CalendarGenerator) (year : Z)
    (date date_type remark : string) : string :=
  let escaped_remark := escape_quotes remark in
  ("INSERT INTO " +:+ table_name (config self) +:+ " VALUES (") +:+
  ("'" +:+ str_int year +:+ "', ") +:+
  ("'" +:+ date +:+ "', ") +:+
  ("'" +:+ date_type +:+ "', ") +:+
  ("'" +:+ escaped_remark +:+ "'") +:+
  (");" +:+ LF).

(** ** The data frame *)

Record Row : Type := mkRow {
  YEAR : Z;
  CALENDAR_DATE : string;
  DATE_TYPE : string;
  COMMENTS : string
}.

(** A frame is its column names and its rows, each under an index label,
    in the order in which they were added. *)
Record DataFrame : Type := mkDataFrame {
  columns : list string;
  rows : list (nat * Row)
}.

(** [df.loc[label] = row]: overwrite the row with that label, or add the
    row at the end when the label is new. *)
Fixpoint loc_set (rs : list (nat * Row)) (label : nat) (row : Row) : list (nat * Row) :=
  match rs with
  | [] => [(label, row)]
  | (l, r) :: rs' =>
      if Nat.eqb l label then (l, row) :: rs' else (l, r) :: loc_set rs' label row
  end.

Definition df_loc_set (df : DataFrame) (label : nat) (row : Row) : DataFrame :=
  mkDataFrame (columns df) (loc_set (rows df) label row).

(** [enumerate(xs)] *)
Fixpoint enumerate_from {A : Type} (start : nat) (xs : list A) : list (nat * A) :=
  match xs with
  | [] => []
  | x :: xs' => (start, x) :: enumerate_from (S start) xs'
  end.

Definition enumerate {A : Type} (xs : list A) : list (nat * A) := enumerate_from 0 xs.

(** ** The file system *)

(** [dirs] holds the paths given to [mkdir(parents=True, exist_ok=True)]:
    each stands for the directory and for the parents made with it. *)
Record World : Type := mkWorld {
  dirs : gset string;
  files : gmap string string
}.

Definition write_file (path content : string) (w : World) : World :=
  mkWorld (dirs w) (<[path := content]> (files w)).

Definition BOM : string :=
  String (ascii_of_N 239) (String (ascii_of_N 187) (String (ascii_of_N 191) "")).

Fixpoint concat_str (ss : list string) : string :=
  match ss with
  | [] => ""
  | s :: ss' => s +:+ concat_str ss'
  end.

Section Generator.

(** The calendar that is consulted. *)
Variable calendar : Oracle.

(** [pathlib]: [str(Path(p).absolute())] and [str(a / name)]. *)
Variable absolute : string -> string.
Variable joinpath : string -> string -> string.

(** The csv writer behind [to_csv]: the line it writes for one record. *)
Variable csv_line : list string -> string.

(** [CalendarGenerator.ensure_dir_exists] *)
Definition ensure_dir_exists (dir_path : string) (file_name : option string)
    (w : World) : string * World :=
  let w := mkWorld ({[ dir_path ]} ∪ dirs w) (files w) in
  let abs_path := absolute dir_path in
  let abs_path := match file_name with
                  | Some name => joinpath abs_path name
                  | None => abs_path
                  end in
  (abs_path, w).

(** [df.to_csv(csv_file, index=False, encoding='utf-8-sig')]: the byte
    order mark, the header, then the rows in the order of the frame. *)
Definition to_csv (df : DataFrame) : string :=
  BOM +:+ csv_line (columns df) +:+
  concat_str (map (fun '(_, r) =>
    csv_line [str_int (YEAR r); CALENDAR_DATE r; DATE_TYPE r; COMMENTS r]) (rows df)).

(** [CalendarGenerator._save_files] *)
Definition _save_files (self : CalendarGenerator) (sql_statements : list string)
    (df : DataFrame) (w : World) : World :=
  let '(file_base_path, w) :=
    ensure_dir_exists (save_path (config self))
      (Some (str_int (target_year (config self)) +:+ "Day")) w in
  let sql_file := file_base_path +:+ ".sql" in
  let w := write_file sql_file (concat_str sql_statements) w in
  let csv_file := file_base_path +:+ ".csv" in
  write_file csv_file (to_csv df) w.

(** The body of the [for] loop of [generate], over [enumerate(dates)]. *)
Fixpoint generate_loop (self : CalendarGenerator) (items : list (nat * string))
    (sql_statements : list string) (df : DataFrame)
    : outcome (list string * DataFrame) :=
  match items with
  | [] => Return (sql_statements, df)
  | (index, date_str) :: items' =>
      '(date_type, remark) ← judge_date_type (date_judge self) calendar date_str;
      let sql := generate_sql self (target_year (config self)) date_str
                   date_type remark in
      let sql_statements := sql_statements ++ [sql] in
      let df := df_loc_set df index
                  (mkRow (target_year (config self)) date_str date_type remark) in
      generate_loop self items' sql_statements df
  end.

(** What [generate] has built when it reaches [_save_files]. *)
Definition generate_records (fuel : nat) (self : CalendarGenerator)
    : outcome (list string * DataFrame) :=
  let df := mkDataFrame ["YEAR"; "CALENDAR_DATE"; "DATE_TYPE"; "COMMENTS"] [] in
  let sql_statements := [] in
  dates ← get_whole_year fuel (target_year (config self));
  generate_loop self (enumerate dates) sql_statements df.

(** [CalendarGenerator.generate]: an exception leaves the world as it is. *)
Definition generate (fuel : nat) (self : CalendarGenerator) (w : World)
    : outcome unit * World :=
  match generate_records fuel self with
  | Return (sql_statements, df) => (Return tt, _save_files self sql_statements df w)
  | Raise e => (Raise e, w)
  | OutOfFuel => (OutOfFuel, w)
  end.

(** [main], given the outcome of [ConfigLoader.load_config] (reading and
    parsing the YAML document is not modelled; [load_config] hands
    [date_types] over as it finds it under that key). *)
Definition main (fuel : nat) (loaded : outcome Config) (w : World)
    : outcome unit * World :=
  match loaded with
  | Return config =>
      match CalendarGenerator_init config with
      | Return generator => generate fuel generator w
      | Raise e => (Raise e, w)
      | OutOfFuel => (OutOfFuel, w)
      end
  | Raise e => (Raise e, w)
  | OutOfFuel => (OutOfFuel, w)
  end.

End Generator.

(** ** [ConfigLoader] *)

(** What [yaml.safe_load] returns: a document of mappings, sequences and
    scalars (floats and timestamps, which behave as the other scalars
    below, are left out; mapping keys are strings). *)
#[warnings="-register-all"]
Inductive yaml : Type :=
  | YNull
  | YBool (b : bool)
  | YInt (n : Z)
  | YStr (s : string)
  | YSeq (items : list yaml)
  | YMap (entries : gmap string yaml).

(** What [load_config] can raise. *)
Inductive load_exn : Type :=
  | FileNotFoundError            (* open(config_path) *)
  | YAMLError                    (* yaml.safe_load *)
  | MissingKey (key : string)    (* the KeyError of d[key] *)
  | TypeError                    (* v[key] on a value that is no mapping *)
  | Uncaught (exception : string).  (* any other exception of open or read *)

(** Opening, decoding and parsing the file: there is no such file, the
    text is no YAML, another exception is raised ([PermissionError],
    [IsADirectoryError], [UnicodeDecodeError], ...), or a document is read. *)
Inductive source : Type :=
  | NoSuchFile
  | Malformed
  | Failed (exception : string)
  | Parsed (config_data : yaml).

(** [v[key]] with a string key: only a mapping can be subscripted so. *)
Definition subscript (v : yaml) (key : string) : load_exn + yaml :=
  match v with
  | YMap entries =>
      match entries !! key with
      | Some x => inr x
      | None => inl (MissingKey key)
      end
  | _ => inl TypeError
  end.

(** The [Config] object as [load_config] builds it: the dataclass does
    not check the annotated types of its fields. *)
Record LoadedConfig : Type := mkLoadedConfig {
  loaded_table_name : yaml;
  loaded_target_year : yaml;
  loaded_save_path : yaml;
  loaded_date_types : yaml
}.

Definition and_then {A B : Type} (x : load_exn + A) (k : A -> load_exn + B)
    : load_exn + B :=
  match x with
  | inl e => inl e
  | inr a => k a
  end.

(** [ConfigLoader.load_config]: the three handlers log and raise again,
    and an exception that none of them catches goes on as it is. *)
Definition load_config (src : source) : load_exn + LoadedConfig :=
  match src with
  | NoSuchFile => inl FileNotFoundError
  | Malformed => inl YAMLError
  | Failed exception => inl (Uncaught exception)
  | Parsed config_data =>
      and_then (subscript config_data "database") (fun database =>
      and_then (subscript database "table_name") (fun table_name =>
      and_then (subscript config_data "generation") (fun generation =>
      and_then (subscript generation "target_year") (fun target_year =>
      and_then (subscript config_data "generation") (fun generation =>
      and_then (subscript generation "save_path") (fun save_path =>
      and_then (subscript config_data "date_types") (fun date_types =>
      inr (mkLoadedConfig table_name target_year save_path date_types))))))))
  end.

(** The line feed character. *)
Definition LF_char : ascii := ascii_of_N 10.

(** The number of occurrences of a character in a string. *)
Fixpoint count_char (c : ascii) (s : string) : nat :=
  match s with
  | EmptyString => O
  | String a rest => if Ascii.eqb a c then S (count_char c rest) else count_char c rest
  end.

(** ** Vocabulary of the statements *)

(** The days [k], [k+1], ... ([n] of them) of month [m] of year [y]. *)
Fixpoint days_from (y m k : Z) (n : nat) : list date :=
  match n with
  | O => []
  | S n' => Date.mk y m k :: days_from y m (k + 1) n'
  end.

Definition month_dates (y m : Z) : list date :=
  days_from y m 1 (Z.to_nat (Date.days_in_month y m)).

(** Every date of year [y], from January 1 to December 31. *)
Definition dates_of_year (y : Z) : list date :=
  flat_map (month_dates y) [1; 2; 3; 4; 5; 6; 7; 8; 9; 10; 11; 12].

(** Each element is followed by the next calendar day. *)
Fixpoint consecutive (ds : list date) : Prop :=
  match ds with
  | d :: ((d' :: _) as ds') => Date.tomorrow d = Return d' /\ consecutive ds'
  | _ => True
  end.

(** [steps c ds n]: [ds] starts at [c], goes on day by day, and the day
    after its last element is [n]. *)
Inductive steps : date -> list date -> date -> Prop :=
  | steps_nil c : steps c [] c
  | steps_cons c c' ds n :
      Date.tomorrow c = Return c' -> steps c' ds n -> steps c (c :: ds) n.

(** The first day after month [m] of year [y]. *)
Definition first_after (y m : Z) : date :=
  if m <? 12 then Date.mk y (m + 1) 1 else Date.mk (y + 1) 1 1.

(** The order of dates, as a relation. *)
Definition before (a b : date) : Prop := Date.lt a b = true.

Definition leap_year (y : Z) : Prop :=
  y mod 4 = 0 /\ (y mod 100 <> 0 \/ y mod 400 = 0).

(** The number of apostrophes in a string. *)
Fixpoint count_quotes (s : string) : nat :=
  match s with
  | EmptyString => O
  | String c rest => if Ascii.eqb c "'" then S (count_quotes rest) else count_quotes rest
  end.

(** What is left when the apostrophes are taken out. *)
Fixpoint without_quotes (s : string) : string :=
  match s with
  | EmptyString => EmptyString
  | String c rest =>
      if Ascii.eqb c "'" then without_quotes rest else String c (without_quotes rest)
  end.

(** The statement form of the specification:
    [INSERT INTO <table_name> VALUES ('<year>', '<date>', '<type_code>', '<remark>');] *)
Definition insert_statement (table year date type_code remark : string) : string :=
  "INSERT INTO " +:+ table +:+ " VALUES ('" +:+ year +:+ "', '" +:+ date +:+
  "', '" +:+ type_code +:+ "', '" +:+ remark +:+ "');".

(** Reading a quoted SQL literal, from just after its opening apostrophe:
    a doubled apostrophe stands for one, a single one closes the literal.
    The result is the value and the text after the closing apostrophe. *)
Fixpoint scan_literal (s : string) : option (string * string) :=
  match s with
  | EmptyString => None
  | String c rest =>
      if Ascii.eqb c "'" then
        match rest with
        | String c' rest' =>
            if Ascii.eqb c' "'" then
              '(v, r) ← scan_literal rest'; Some (String "'" v, r)
            else Some (EmptyString, rest)
        | EmptyString => Some (EmptyString, EmptyString)
        end
      else '(v, r) ← scan_literal rest; Some (String c v, r)
  end.

Fixpoint strip_prefix (p s : string) : option string :=
  match p, s with
  | EmptyString, _ => Some s
  | String a p', String b s' => if Ascii.eqb a b then strip_prefix p' s' else None
  | String _ _, EmptyString => None
  end.

(** Reading one statement of table [table] back: the four values. *)
Definition read_insert (table stmt : string) : option (list string) :=
  s ← strip_prefix ("INSERT INTO " +:+ table +:+ " VALUES ('") stmt;
  '(v1, s) ← scan_literal s;
  s ← strip_prefix ", '" s;
  '(v2, s) ← scan_literal s;
  s ← strip_prefix ", '" s;
  '(v3, s) ← scan_literal s;
  s ← strip_prefix ", '" s;
  '(v4, s) ← scan_literal s;
  if String.eqb s (");" +:+ LF) then Some [v1; v2; v3; v4] else None.

(** The statement that belongs to a row of the frame. *)
Definition statement_of_row (self : CalendarGenerator) (r : Row) : string :=
  generate_sql self (YEAR r) (CALENDAR_DATE r) (DATE_TYPE r) (COMMENTS r).

(** The row that [generate] stores for a date string and its class. *)
Definition row_for (self : CalendarGenerator) (date_str : string)
    (class : string * string) : Row :=
  mkRow (target_year (config self)) date_str (fst class) (snd class).

(** The four role keys of [date_types]. *)
Definition REQUIRED_KEYS : list string :=
  ["workday"; "weekend"; "holiday"; "working_holiday"].

(** Two calendars give the same answers about a date. *)
Definition same_answers (c1 c2 : Oracle) (d : date) : Prop :=
  is_holiday c1 d = is_holiday c2 d /\
  is_workday c1 d = is_workday c2 d /\
  get_holiday_detail c1 d = get_holiday_detail c2 d.

(** ** Sample data *)

Module Sample.

Definition entry (code description : string) : gmap string string :=
  <["code" := code]> (<["description" := description]> ∅).

Definition date_types : gmap string (gmap string string) :=
  <["workday" := entry "0" "workday"]>
  (<["weekend" := entry "1" "weekend"]>
  (<["holiday" := entry "2" "holiday"]>
  (<["working_holiday" := entry "3" "shifted workday"]> ∅))).

Definition config : Config := mkConfig "WORK_CALENDAR" 2024 "./output" date_types.

(** The same configuration without the [holiday] key. *)
Definition config_without_holiday : Config :=
  mkConfig "WORK_CALENDAR" 2024 "./output" (delete "holiday" date_types).

(** A configuration whose holiday code holds an apostrophe. *)
Definition config_quoted_code : Config :=
  mkConfig "WORK_CALENDAR" 2024 "./output"
    (<["holiday" := entry "H'" "holiday"]> date_types).

Definition judge : DateTypeJudge := mkDateTypeJudge config "0" "1" "2" "3".

Definition generator : CalendarGenerator := mkCalendarGenerator config judge.

Definition generator_quoted_code : CalendarGenerator :=
  mkCalendarGenerator config_quoted_code
    (mkDateTypeJudge config_quoted_code "0" "1" "H'" "3").

(** A toy calendar: the first of January is New Year's Day, the days 6, 7,
    13, 14, 20, 21, 27 and 28 of each month are days off, and February 4 is
    worked to make up for the Spring Festival. *)
Definition day_off (d : date) : bool :=
  let k := Date.day d mod 7 in
  ((k =? 6) || (k =? 0)) && negb ((Date.month d =? 2) && (Date.day d =? 4)).

Definition new_years_day (d : date) : bool := (Date.month d =? 1) && (Date.day d =? 1).

Definition calendar : Oracle := {|
  is_holiday d := new_years_day d || day_off d;
  is_workday d := negb (new_years_day d || day_off d);
  get_holiday_detail d :=
    if new_years_day d then (true, Some "New Year's Day")
    else if (Date.month d =? 2) && (Date.day d =? 4) then (false, Some "Spring Festival")
    else (day_off d, None)
|}.

(** A calendar with no answer for the last day of the year. *)
Definition calendar_gap : Oracle := {|
  is_holiday d := is_holiday calendar d;
  is_workday d := is_workday calendar d && negb ((Date.month d =? 12) && (Date.day d =? 31));
  get_holiday_detail d := get_holiday_detail calendar d
|}.

(** A calendar that differs from [calendar] in the year 2025 only. *)
Definition calendar_other : Oracle := {|
  is_holiday d := if Date.year d =? 2025 then true else is_holiday calendar d;
  is_workday d := if Date.year d =? 2025 then false else is_workday calendar d;
  get_holiday_detail d :=
    if Date.year d =? 2025 then (true, Some "Holiday")
    else get_holiday_detail calendar d
|}.

Definition absolute (p : string) : string := "/srv/" +:+ p.
Definition joinpath (a name : string) : string := a +:+ "/" +:+ name.

Fixpoint csv_line (fields : list string) : string :=
  match fields with
  | [] => LF
  | [f] => f +:+ LF
  | f :: fs => f +:+ "," +:+ csv_line fs
  end.

Definition world : World := mkWorld ∅ ∅.

End Sample.

(** ** More sample data *)

Module Scenario.

(** The toy calendar with no answer for January 3 and for December 31. *)
Definition unanswered (d : date) : bool :=
  ((Date.month d =? 1) && (Date.day d =? 3)) ||
  ((Date.month d =? 12) && (Date.day d =? 31)).

Definition calendar_two_gaps : Oracle := {|
  is_holiday d := is_holiday Sample.calendar d && negb (unanswered d);
  is_workday d := is_workday Sample.calendar d && negb (unanswered d);
  get_holiday_detail d := get_holiday_detail Sample.calendar d
|}.

(** The same configuration for a year that [datetime] does not have. *)
Definition config_year_10000 : Config :=
  mkConfig "WORK_CALENDAR" 10000 "./output" Sample.date_types.

Definition generator_year_10000 : CalendarGenerator :=
  mkCalendarGenerator config_year_10000
    (mkDateTypeJudge config_year_10000 "0" "1" "2" "3").

(** A configuration without the [holiday] key whose weekend entry has a
    description and no [code]. *)
Definition config_weekend_without_code : Config :=
  mkConfig "WORK_CALENDAR" 2024 "./output"
    (<["weekend" := <["description" := "weekend"]> ∅]>
       (delete "holiday" Sample.date_types)).

Definition yaml_entry (code description : string) : yaml :=
  YMap (<["code" := YStr code]> (<["description" := YStr description]> ∅)).

(** A document with every section, whose [date_types] has one role only. *)
Definition document : yaml :=
  YMap (<["database" := YMap (<["table_name" := YStr "WORK_CALENDAR"]> ∅)]>
       (<["generation" := YMap (<["target_year" := YInt 2024]>
                               (<["save_path" := YStr "./output"]> ∅))]>
       (<["date_types" := YMap (<["workday" := yaml_entry "0" "workday"]> ∅)]> ∅))).

(** A document whose [generation] section lacks [save_path] and which has
    no [date_types] either. *)
Definition document_without_save_path : yaml :=
  YMap (<["database" := YMap (<["table_name" := YStr "WORK_CALENDAR"]> ∅)]>
       (<["generation" := YMap (<["target_year" := YInt 2024]> ∅)]> ∅)).

End Scenario.

(** ** The calendar *)

Section Calendar.

Lemma is_leap_spec y : Date.is_leap y = true <-> leap_year y.
Proof.
  unfold Date.is_leap, leap_year.
  rewrite andb_true_iff, orb_true_iff, negb_true_iff, !Z.eqb_eq, Z.eqb_neq.
  reflexivity.
Qed.

Lemma days_in_month_bounds y m : 28 <= Date.days_in_month y m <= 31.
Proof.
  unfold Date.days_in_month, Date.DAYS_IN_MONTH.
  repeat match goal with |- context [if ?b then _ else _] => destruct b end; lia.
Qed.

Lemma compare_lt_iff a b :
  Date.lt a b = true <->
  Date.year a < Date.year b \/
  (Date.year a = Date.year b /\
   (Date.month a < Date.month b \/
    (Date.month a = Date.month b /\ Date.day a < Date.day b))).
Proof.
  unfold Date.lt, Date.compare.
  destruct (Z.compare_spec (Date.year a) (Date.year b));
    destruct (Z.compare_spec (Date.month a) (Date.month b));
    destruct (Z.compare_spec (Date.day a) (Date.day b));
    split; intros; try discriminate; try reflexivity; lia.
Qed.

Lemma le_iff a b :
  Date.le a b = true <->
  Date.year a < Date.year b \/
  (Date.year a = Date.year b /\
   (Date.month a < Date.month b \/
    (Date.month a = Date.month b /\ Date.day a <= Date.day b))).
Proof.
  unfold Date.le, Date.compare.
  destruct (Z.compare_spec (Date.year a) (Date.year b));
    destruct (Z.compare_spec (Date.month a) (Date.month b));
    destruct (Z.compare_spec (Date.day a) (Date.day b));
    split; intros; try discriminate; try reflexivity; lia.
Qed.

Lemma lt_trans a b c :
  Date.lt a b = true -> Date.lt b c = true -> Date.lt a c = true.
Proof. rewrite !compare_lt_iff. lia. Qed.

Lemma lt_irrefl a : Date.lt a a = false.
Proof.
  destruct (Date.lt a a) eqn:E; [|reflexivity].
  apply compare_lt_iff in E. lia.
Qed.

Lemma valid_iff d :
  Date.valid d = true <->
  1 <= Date.year d <= 9999 /\ 1 <= Date.month d <= 12 /\
  1 <= Date.day d <= Date.days_in_month (Date.year d) (Date.month d).
Proof.
  unfold Date.valid, Date.MINYEAR, Date.MAXYEAR.
  rewrite !andb_true_iff, !Z.leb_le. lia.
Qed.

Lemma tomorrow_lt d d' : Date.tomorrow d = Return d' -> Date.lt d d' = true.
Proof.
  unfold Date.tomorrow. intros H. apply compare_lt_iff.
  repeat match type of H with
         | context [if ?b then _ else _] => destruct b eqn:?
         end; inversion H; subst; simpl; lia.
Qed.

Lemma tomorrow_valid d d' :
  Date.valid d = true -> Date.tomorrow d = Return d' -> Date.valid d' = true.
Proof.
  rewrite !valid_iff. unfold Date.tomorrow, Date.MAXYEAR. intros Hv H.
  repeat match type of H with
         | context [if ?b then _ else _] => destruct b eqn:?
         end; inversion H; subst; simpl;
    pose proof (days_in_month_bounds (Date.year d) (Date.month d + 1));
    pose proof (days_in_month_bounds (Date.year d + 1) 1); lia.
Qed.

(** Adding one day is taking the next day. *)
Lemma add_one_day d : Date.add d (Date.mk_timedelta 1) = Date.tomorrow d.
Proof.
  unfold Date.add. simpl. destruct (Date.tomorrow d); reflexivity.
Qed.

End Calendar.

(** ** The dates of a year *)

Section YearDates.

Lemma length_days_from y m k n : length (days_from y m k n) = n.
Proof. revert k. induction n; intros; simpl; [reflexivity|]. by rewrite IHn. Qed.

Lemma in_days_from y m n : forall k d,
  In d (days_from y m k n) <->
  Date.year d = y /\ Date.month d = m /\ k <= Date.day d < k + Z.of_nat n.
Proof.
  induction n as [|n IH]; intros k d; simpl.
  - lia.
  - rewrite IH. split.
    + intros [<- | H]; simpl; lia.
    + intros (Hy & Hm & Hd). destruct d as [y' m' d']; simpl in *; subst.
      destruct (Z.eq_dec d' k); [left; congruence | right; lia].
Qed.

Lemma in_month_dates y m d :
  In d (month_dates y m) <->
  Date.year d = y /\ Date.month d = m /\ 1 <= Date.day d <= Date.days_in_month y m.
Proof.
  unfold month_dates. rewrite in_days_from.
  pose proof (days_in_month_bounds y m). lia.
Qed.

(** The list holds exactly the dates of the year. *)
Lemma in_dates_of_year y d :
  In d (dates_of_year y) <->
  Date.year d = y /\ 1 <= Date.month d <= 12 /\
  1 <= Date.day d <= Date.days_in_month y (Date.month d).
Proof.
  unfold dates_of_year. rewrite in_flat_map. split.
  - intros (m & Hm & Hd). apply in_month_dates in Hd as (Hy & Hmm & Hdd).
    rewrite Hmm. simpl in Hm. repeat split; try lia; assumption.
  - intros (Hy & Hm & Hd). exists (Date.month d). split.
    + simpl. lia.
    + apply in_month_dates. auto.
Qed.

Lemma steps_app a l1 b l2 c : steps a l1 b -> steps b l2 c -> steps a (l1 ++ l2) c.
Proof.
  induction 1; intros; simpl; [assumption|].
  econstructor; eauto.
Qed.

(** Inside a month the days follow one another. *)
Lemma steps_days_from y m n : forall k,
  k + Z.of_nat n <= Date.days_in_month y m ->
  steps (Date.mk y m k) (days_from y m k n) (Date.mk y m (k + Z.of_nat n)).
Proof.
  induction n as [|n IH]; intros k Hk; simpl days_from.
  - replace (k + Z.of_nat 0) with k by lia. constructor.
  - apply steps_cons with (c' := Date.mk y m (k + 1)).
    + unfold Date.tomorrow; simpl.
      destruct (Z.ltb_spec k (Date.days_in_month y m)); [reflexivity | lia].
    + replace (k + Z.of_nat (S n)) with (k + 1 + Z.of_nat n) by lia.
      apply IH. lia.
Qed.

Lemma days_from_snoc y m n : forall k,
  days_from y m k (S n) = days_from y m k n ++ [Date.mk y m (k + Z.of_nat n)].
Proof.
  induction n as [|n IH]; intros k.
  - simpl. rewrite Z.add_0_r. reflexivity.
  - change (days_from y m k (S (S n)))
      with (Date.mk y m k :: days_from y m (k + 1) (S n)).
    rewrite IH. cbn [app days_from]. do 4 f_equal. lia.
Qed.

Lemma steps_month y m :
  1 <= m <= 12 -> y < 9999 ->
  steps (Date.mk y m 1) (month_dates y m) (first_after y m).
Proof.
  intros Hm Hy. unfold month_dates.
  pose proof (days_in_month_bounds y m) as Hb.
  destruct (Z.to_nat (Date.days_in_month y m)) as [|n] eqn:En; [lia|].
  rewrite days_from_snoc. eapply steps_app.
  - apply steps_days_from. lia.
  - apply steps_cons with (c' := first_after y m); [|constructor].
    unfold Date.tomorrow, first_after, Date.MAXYEAR; simpl.
    destruct (Z.ltb_spec (1 + Z.of_nat n) (Date.days_in_month y m)); [lia|].
    destruct (Z.ltb_spec m 12); [reflexivity|].
    destruct (Z.ltb_spec y 9999); [reflexivity | lia].
Qed.

Lemma steps_year y :
  y < 9999 -> steps (Date.mk y 1 1) (dates_of_year y) (Date.mk (y + 1) 1 1).
Proof.
  intros Hy. unfold dates_of_year. cbn [flat_map]. rewrite app_nil_r.
  do 11 (eapply steps_app; [apply steps_month; lia | simpl first_after]).
  change (Date.mk (y + 1) 1 1) with (first_after y 12).
  apply steps_month; lia.
Qed.

Lemma steps_head c ds n : steps c ds n -> ds = [] \/ exists tl, ds = c :: tl.
Proof. destruct 1; eauto. Qed.

Lemma steps_consecutive c ds n : steps c ds n -> consecutive ds.
Proof.
  induction 1 as [|c c' ds n Ht Hs IH]; simpl; [exact I|].
  destruct (steps_head _ _ _ Hs) as [-> | [tl ->]]; [exact I | auto].
Qed.

Lemma steps_sorted c ds n : steps c ds n -> Sorted before ds.
Proof.
  induction 1 as [|c c' ds n Ht Hs IH]; constructor; [assumption|].
  destruct (steps_head _ _ _ Hs) as [-> | [tl ->]]; constructor.
  apply tomorrow_lt, Ht.
Qed.

Lemma strongly_sorted_NoDup (ds : list date) : StronglySorted before ds -> NoDup ds.
Proof.
  induction 1 as [|d ds Hs IH Hall]; constructor; [|assumption].
  intros Hin%list_elem_of_In. rewrite List.Forall_forall in Hall.
  apply Hall in Hin. unfold before in Hin. rewrite lt_irrefl in Hin.
  discriminate.
Qed.

Lemma dates_of_year_sorted y : y < 9999 -> StronglySorted before (dates_of_year y).
Proof.
  intros Hy. apply Sorted_StronglySorted.
  - intros a b c. apply lt_trans.
  - eapply steps_sorted, steps_year, Hy.
Qed.

Lemma length_dates_of_year y :
  length (dates_of_year y) = if Date.is_leap y then 366%nat else 365%nat.
Proof.
  unfold dates_of_year. cbn [flat_map]. rewrite !length_app. unfold month_dates.
  rewrite !length_days_from. unfold Date.days_in_month. simpl.
  destruct (Date.is_leap y); reflexivity.
Qed.

Lemma head_dates_of_year y : head (dates_of_year y) = Some (Date.mk y 1 1).
Proof. reflexivity. Qed.

Lemma last_dates_of_year y : last (dates_of_year y) = Some (Date.mk y 12 31).
Proof.
  unfold dates_of_year. cbn [flat_map]. rewrite app_nil_r.
  change (month_dates y 12) with (days_from y 12 1 (S 30)).
  rewrite days_from_snoc, !app_assoc. apply last_snoc.
Qed.

Lemma fits_c_int_iff n :
  Date.fits_c_int n = true <-> -2147483648 <= n <= 2147483647.
Proof. unfold Date.fits_c_int. rewrite andb_true_iff, !Z.leb_le. reflexivity. Qed.

Lemma new_valid y m d :
  Date.valid (Date.mk y m d) = true -> Date.new y m d = Return (Date.mk y m d).
Proof.
  intros Hv. pose proof Hv as (Hy & Hm & Hd)%valid_iff.
  cbn [Date.year Date.month Date.day] in Hy, Hm, Hd.
  pose proof (days_in_month_bounds y m).
  unfold Date.new.
  rewrite !(proj2 (fits_c_int_iff _)) by lia. cbn [negb]. by rewrite Hv.
Qed.

(** The loop walks along a run of days that are not after [end_]. *)
Lemma loop_steps end_ cur ds nxt :
  steps cur ds nxt ->
  Forall (fun d => Date.le d end_ = true) ds ->
  forall f acc,
    whole_year_loop (length ds + f) end_ (Date.mk_timedelta 1) cur acc =
    whole_year_loop f end_ (Date.mk_timedelta 1) nxt (acc ++ map strftime ds).
Proof.
  induction 1 as [c|c c' ds n Ht Hs IH]; intros Hle f acc.
  - simpl. by rewrite app_nil_r.
  - inversion Hle as [|? ? Hc Hds]; subst.
    cbn [length Nat.add whole_year_loop]. rewrite Hc, add_one_day, Ht.
    cbn [mbind outcome_bind]. rewrite IH by assumption.
    cbn [map]. by rewrite <- app_assoc.
Qed.

(** In a year before 9999 the loop returns the dates of the year. *)
Lemma get_whole_year_returns fuel y :
  1 <= y <= 9998 -> (367 <= fuel)%nat ->
  get_whole_year fuel y = Return (map strftime (dates_of_year y)).
Proof.
  intros Hy Hf. unfold get_whole_year.
  rewrite !new_valid
    by (apply valid_iff; cbn [Date.year Date.month Date.day];
        try change (Date.days_in_month y 1) with 31;
        try change (Date.days_in_month y 12) with 31; lia).
  cbn [mbind outcome_bind].
  pose proof (length_dates_of_year y) as Hlen.
  replace fuel with (length (dates_of_year y) + (fuel - length (dates_of_year y)))%nat
    by (destruct (Date.is_leap y); lia).
  rewrite (loop_steps _ _ _ _ (steps_year y ltac:(lia))).
  - destruct (fuel - length (dates_of_year y))%nat eqn:E;
      [destruct (Date.is_leap y); lia|].
    cbn [whole_year_loop].
    replace (Date.le _ _) with false; [reflexivity|].
    symmetry. apply not_true_is_false. rewrite le_iff. simpl. lia.
  - apply List.Forall_forall. intros d Hd. apply in_dates_of_year in Hd.
    apply le_iff. simpl.
    pose proof (days_in_month_bounds y (Date.month d)). lia.
Qed.

End YearDates.

(** ** Reading back what [strftime] prints *)

Section ParseFormat.

(** A property of the integers [lo .. hi], checked one by one. *)
Lemma for_all_between (P : Z -> Prop) lo hi :
  Forall P (seqZ lo (hi - lo + 1)) -> forall k, lo <= k <= hi -> P k.
Proof. intros H k Hk. rewrite Forall_seqZ in H. apply H. lia. Qed.

Lemma digit_val_digit_char k : 0 <= k <= 9 -> digit_val (digit_char k) = Some k.
Proof.
  revert k. apply (for_all_between (fun k => digit_val (digit_char k) = Some k)).
  repeat constructor.
Qed.

Lemma in_range_digit_char lo hi k :
  0 <= k <= 9 -> lo <= k <= hi -> in_range lo hi (digit_char k) = Some k.
Proof.
  intros Hk Hr. unfold in_range. rewrite digit_val_digit_char by assumption.
  destruct (Z.leb_spec lo k); [|lia]. destruct (Z.leb_spec k hi); [reflexivity|lia].
Qed.

Lemma re_Y_digits y rest :
  0 <= y <= 9999 ->
  re_Y (String (digit_char (y / 1000)) (String (digit_char (y / 100 mod 10))
         (String (digit_char (y mod 100 / 10))
            (String (digit_char (y mod 100 mod 10)) rest)))) = [(y, rest)].
Proof.
  intros Hy. unfold re_Y.
  rewrite !digit_val_digit_char by (Z.div_mod_to_equations; lia).
  do 2 f_equal. Z.div_mod_to_equations. lia.
Qed.

(** The first way in which the month group matches two printed digits
    reads the month back. *)
Lemma re_m_digits m :
  1 <= m <= 12 ->
  forall rest, exists tl,
    re_m (String (digit_char (m / 10)) (String (digit_char (m mod 10)) rest)) =
    (m, rest) :: tl.
Proof.
  revert m.
  apply (for_all_between (fun m => forall rest, exists tl,
    re_m (String (digit_char (m / 10)) (String (digit_char (m mod 10)) rest)) =
    (m, rest) :: tl)).
  repeat constructor; intros rest; cbv; eexists; reflexivity.
Qed.

Lemma re_d_digits d :
  1 <= d <= 31 ->
  forall rest, exists tl,
    re_d (String (digit_char (d / 10)) (String (digit_char (d mod 10)) rest)) =
    (d, rest) :: tl.
Proof.
  revert d.
  apply (for_all_between (fun d => forall rest, exists tl,
    re_d (String (digit_char (d / 10)) (String (digit_char (d mod 10)) rest)) =
    (d, rest) :: tl)).
  repeat constructor; intros rest; cbv; eexists; reflexivity.
Qed.

Lemma year_digits_four y : 1000 <= y -> year_digits y = four_digits y.
Proof.
  intros Hy. unfold year_digits.
  destruct (Z.ltb_spec y 10); [lia|]. destruct (Z.ltb_spec y 100); [lia|].
  destruct (Z.ltb_spec y 1000); [lia|]. reflexivity.
Qed.

Lemma re_match_strftime d :
  1000 <= Date.year d <= 9999 -> 1 <= Date.month d <= 12 -> 1 <= Date.day d <= 31 ->
  re_match (strftime d) = Some (Date.year d, Date.month d, Date.day d, "").
Proof.
  intros Hy Hm Hd. unfold strftime. rewrite year_digits_four by lia.
  unfold four_digits, two_digits, re_match.
  cbv [String.append]. rewrite re_Y_digits by lia.
  destruct (re_m_digits _ Hm (String "-" (String (digit_char (Date.day d / 10))
              (String (digit_char (Date.day d mod 10)) "")))) as [tlm Em].
  destruct (re_d_digits _ Hd "") as [tld Ed].
  cbn [first_match re_lit Ascii.eqb Bool.eqb mbind option_bind].
  rewrite Em. cbn [first_match re_lit Ascii.eqb Bool.eqb mbind option_bind].
  rewrite Ed. reflexivity.
Qed.

(** Parsing undoes printing on every date from the year 1000 on. *)
Lemma strptime_strftime d :
  Date.valid d = true -> 1000 <= Date.year d -> strptime (strftime d) = Return d.
Proof.
  intros Hv H1000. pose proof Hv as Hv'. apply valid_iff in Hv' as (Hy & Hm & Hd).
  pose proof (days_in_month_bounds (Date.year d) (Date.month d)).
  unfold strptime. rewrite re_match_strftime by lia.
  destruct d as [y m dd]. apply new_valid, Hv.
Qed.

(** The group of the year needs four digits: a year printed with fewer is
    not matched. *)
Lemma re_Y_unpadded y c1 c2 rest :
  0 <= y < 1000 ->
  re_Y (year_digits y +:+ String "-" (String c1 (String c2 rest))) = [].
Proof.
  intros Hy. unfold year_digits.
  destruct (Z.ltb_spec y 10);
    [|destruct (Z.ltb_spec y 100); [|destruct (Z.ltb_spec y 1000); [|lia]]];
    unfold two_digits; cbv [String.append]; unfold re_Y;
    rewrite ?digit_val_digit_char by (Z.div_mod_to_equations; lia);
    change (digit_val "-") with (@None Z); reflexivity.
Qed.

(** A date of a year below 1000, printed, is refused by [strptime]. *)
Lemma strptime_unpadded d :
  0 <= Date.year d < 1000 ->
  strptime (strftime d) = Raise (StrptimeError (strftime d) FORMAT).
Proof.
  intros Hy.
  assert (H : re_match (strftime d) = None).
  { change (strftime d) with
      (year_digits (Date.year d) +:+
       String "-" (String (digit_char (Date.month d / 10))
         (String (digit_char (Date.month d mod 10))
            ("-" +:+ two_digits (Date.day d))))).
    unfold re_match. by rewrite re_Y_unpadded. }
  unfold strptime. by rewrite H.
Qed.

(** What [strptime] reads from a printed date is that date. *)
Lemma strptime_strftime_inv d d' :
  Date.valid d = true -> strptime (strftime d) = Return d' ->
  d' = d /\ 1000 <= Date.year d.
Proof.
  intros Hv Hp. pose proof Hv as (Hy & _)%valid_iff.
  destruct (Z_lt_le_dec (Date.year d) 1000) as [Hlt|Hge].
  - rewrite strptime_unpadded in Hp by lia. discriminate.
  - rewrite strptime_strftime in Hp by assumption. split; [congruence | exact Hge].
Qed.

Lemma digit_char_inj a b :
  0 <= a <= 9 -> 0 <= b <= 9 -> digit_char a = digit_char b -> a = b.
Proof.
  intros Ha Hb E. apply (f_equal digit_val) in E.
  rewrite !digit_val_digit_char in E by assumption. congruence.
Qed.

Lemma two_digits_inj a b :
  0 <= a <= 99 -> 0 <= b <= 99 -> two_digits a = two_digits b -> a = b.
Proof.
  intros Ha Hb E. unfold two_digits in E. injection E as E1 E2.
  apply digit_char_inj in E1; [|Z.div_mod_to_equations; lia..].
  apply digit_char_inj in E2; [|Z.div_mod_to_equations; lia..].
  Z.div_mod_to_equations. lia.
Qed.

(** Two dates of one year are printed differently. *)
Lemma strftime_inj a b :
  Date.year a = Date.year b ->
  Date.valid a = true -> Date.valid b = true -> strftime a = strftime b -> a = b.
Proof.
  intros Hyear (_ & Hma & Hda)%valid_iff (_ & Hmb & Hdb)%valid_iff E.
  pose proof (days_in_month_bounds (Date.year a) (Date.month a)).
  pose proof (days_in_month_bounds (Date.year b) (Date.month b)).
  unfold strftime in E. rewrite Hyear in E.
  apply (inj (String.app _)) in E. apply (inj (String.app "-")) in E.
  assert (Em : two_digits (Date.month a) = two_digits (Date.month b)).
  { unfold two_digits in *. cbv [String.append] in E. by injection E as -> ->. }
  rewrite Em in E. apply (inj (String.app _)) in E. apply (inj (String.app "-")) in E.
  apply two_digits_inj in Em, E; try lia.
  destruct a, b; cbn in *; congruence.
Qed.

End ParseFormat.

(** ** What the loop of [get_whole_year] can return *)

Section WholeYearSound.

Lemma le_trans_lt lo a b :
  Date.le lo a = true -> Date.lt a b = true -> Date.le lo b = true.
Proof. rewrite !le_iff, compare_lt_iff. lia. Qed.

(** Whatever the fuel, the loop only adds valid dates between its starting
    point and [end_], printed. *)
Lemma loop_sound lo end_ fuel : forall cur acc days,
  whole_year_loop fuel end_ (Date.mk_timedelta 1) cur acc = Return days ->
  Date.valid cur = true -> Date.le lo cur = true ->
  forall s, In s days ->
    In s acc \/
    exists d, s = strftime d /\ Date.valid d = true /\
              Date.le lo d = true /\ Date.le d end_ = true.
Proof.
  induction fuel as [|fuel IH]; intros cur acc days Hrun Hv Hlo s Hs;
    cbn [whole_year_loop] in Hrun; [discriminate|].
  destruct (Date.le cur end_) eqn:Hle.
  - rewrite add_one_day in Hrun.
    destruct (Date.tomorrow cur) as [nxt| |] eqn:Ht; try discriminate.
    cbn [mbind outcome_bind] in Hrun.
    destruct (IH _ _ _ Hrun (tomorrow_valid _ _ Hv Ht)
                (le_trans_lt _ _ _ Hlo (tomorrow_lt _ _ Ht)) s Hs) as [Hin | Hd].
    + apply in_app_or in Hin as [Hin | [<- | []]]; [by left|].
      right. exists cur. auto.
    + by right.
  - inversion Hrun; subst. by left.
Qed.

Lemma new_returns y m d x :
  Date.new y m d = Return x -> x = Date.mk y m d /\ Date.valid x = true.
Proof.
  unfold Date.new.
  repeat match goal with
         | |- context [if ?b then _ else _] => destruct b eqn:?
         end; intros H; inversion H; subst. by split.
Qed.

(** Every string that [get_whole_year] returns is a date of that year,
    printed; [strptime] reads it back as that date and as no other, from
    the year 1000 on. *)
Lemma get_whole_year_sound fuel y days s :
  get_whole_year fuel y = Return days -> In s days ->
  exists d, s = strftime d /\ In d (dates_of_year y) /\
    (1000 <= y -> strptime s = Return d) /\
    (forall d', strptime s = Return d' -> d' = d /\ 1000 <= y).
Proof.
  unfold get_whole_year. intros Hrun Hs.
  destruct (Date.new y 1 1) as [b| |] eqn:N1; try discriminate.
  destruct (Date.new y 12 31) as [e| |] eqn:N2; try discriminate.
  apply new_returns in N1 as [-> V1]. apply new_returns in N2 as [-> V2].
  cbn [mbind outcome_bind] in Hrun.
  assert (Hlo : Date.le (Date.mk y 1 1) (Date.mk y 1 1) = true)
    by (apply le_iff; lia).
  destruct (loop_sound _ _ _ _ _ _ Hrun V1 Hlo s Hs)
    as [[] | (d & -> & Hv & Hge & Hle)].
  apply le_iff in Hge, Hle. cbn [Date.year Date.month Date.day] in Hge, Hle.
  pose proof Hv as Hv'. apply valid_iff in Hv'.
  assert (Date.year d = y) as <- by lia.
  exists d. split; [reflexivity|]. split; [apply in_dates_of_year; lia|].
  split; [intros H1000; by apply strptime_strftime
         |intros d' Hd'; by apply strptime_strftime_inv].
Qed.

End WholeYearSound.

(** ** Claims about the year enumerator *)

(** C2 (as amended): for every year [Y] from 1 to 9998, [get_whole_year]
    returns the dates of [Y] printed as [%Y-%m-%d]: exactly the valid dates
    of that year, starting at January 1, ending at December 31, each
    followed by the next calendar day, strictly ascending, without
    duplicates, 366 of them when [Y] is a leap year and 365 otherwise. *)
Theorem get_whole_year_every_date (fuel : nat) (Y : Z) :
  1 <= Y <= 9998 -> (367 <= fuel)%nat ->
  get_whole_year fuel Y = Return (map strftime (dates_of_year Y)) /\
  (forall d, In d (dates_of_year Y) <-> Date.valid d = true /\ Date.year d = Y) /\
  head (dates_of_year Y) = Some (Date.mk Y 1 1) /\
  last (dates_of_year Y) = Some (Date.mk Y 12 31) /\
  consecutive (dates_of_year Y) /\
  StronglySorted before (dates_of_year Y) /\
  NoDup (map strftime (dates_of_year Y)) /\
  (leap_year Y -> length (map strftime (dates_of_year Y)) = 366%nat) /\
  (~ leap_year Y -> length (map strftime (dates_of_year Y)) = 365%nat).
Proof.
  intros HY Hfuel.
  assert (Hsteps : steps (Date.mk Y 1 1) (dates_of_year Y) (Date.mk (Y + 1) 1 1))
    by (apply steps_year; lia).
  assert (Hmem : forall d,
            In d (dates_of_year Y) <-> Date.valid d = true /\ Date.year d = Y).
  { intros d. rewrite in_dates_of_year, valid_iff. split.
    - intros (<- & ? & ?). lia.
    - intros ((? & ? & ?) & <-). lia. }
  assert (Hsorted : StronglySorted before (dates_of_year Y))
    by (apply dates_of_year_sorted; lia).
  split; [by apply get_whole_year_returns|].
  split; [exact Hmem|].
  split; [apply head_dates_of_year|].
  split; [apply last_dates_of_year|].
  split; [eapply steps_consecutive, Hsteps|].
  split; [exact Hsorted|].
  split; [|split].
  - apply (NoDup_fmap_2_strong strftime).
    + intros a b Ha%list_elem_of_In Hb%list_elem_of_In.
      apply Hmem in Ha as [Hva Hya]. apply Hmem in Hb as [Hvb Hyb].
      apply strftime_inj; [congruence | assumption | assumption].
    + by apply strongly_sorted_NoDup.
  - intros HL%is_leap_spec. rewrite length_map, length_dates_of_year. by rewrite HL.
  - intros HL. rewrite length_map, length_dates_of_year.
    destruct (Date.is_leap Y) eqn:E; [|reflexivity].
    apply is_leap_spec in E. contradiction.
Qed.

Lemma get_whole_year_every_date_witness :
  get_whole_year 400 2024 = Return (map strftime (dates_of_year 2024)) /\
  length (map strftime (dates_of_year 2024)) = 366%nat.
Proof.
  destruct (get_whole_year_every_date 400 2024 ltac:(lia) ltac:(lia))
    as (Hrun & _ & _ & _ & _ & _ & _ & Hleap & _).
  split; [exact Hrun|]. apply Hleap. unfold leap_year. split; [reflexivity|].
  left. discriminate.
Defined.

(** C2 (as stated) fails outside the years of [datetime]: for the year
    10000, a leap year by the rule, no list is returned. *)
Lemma get_whole_year_year_10000 :
  get_whole_year 400 10000 = Raise (DateFieldError 10000 1 1).
Proof. reflexivity. Qed.

(** In the year 9999 the step past December 31 overflows. *)
Lemma get_whole_year_year_9999 : get_whole_year 400 9999 = Raise DateOverflow.
Proof. vm_compute. reflexivity. Qed.

(** C10 (as amended): for every year from 1000 to 9998 the enumerator
    returns, and each string it returns is read back by [strptime] as the
    date it was printed from, a date of that year; so [judge_date_type]
    never raises the errors of its parsing step on them. *)
Theorem enumerated_dates_parse (fuel : nat) (Y : Z) :
  1000 <= Y <= 9998 -> (367 <= fuel)%nat ->
  exists days,
    get_whole_year fuel Y = Return days /\
    length days = length (dates_of_year Y) /\
    forall s, In s days ->
      (exists d, strptime s = Return d /\ strftime d = s /\ Date.year d = Y) /\
      forall self calendar,
        (forall data fmt,
           judge_date_type self calendar s <> Raise (StrptimeError data fmt)) /\
        (forall y m d,
           judge_date_type self calendar s <> Raise (DateFieldError y m d)).
Proof.
  intros HY Hfuel. exists (map strftime (dates_of_year Y)).
  pose proof (get_whole_year_returns fuel Y ltac:(lia) Hfuel) as Hrun.
  split; [exact Hrun|]. split; [apply length_map|].
  intros s Hs.
  destruct (get_whole_year_sound _ _ _ _ Hrun Hs) as (d & -> & Hd & Hp & _).
  specialize (Hp ltac:(lia)).
  split.
  - exists d. split; [exact Hp|]. split; [reflexivity|].
    by apply in_dates_of_year in Hd as [? _].
  - intros self calendar. unfold judge_date_type. rewrite Hp.
    cbn [mbind outcome_bind].
    split; intros;
      repeat match goal with
             | |- context [if ?b then _ else _] => destruct b
             | |- context [let '(_, _) := ?p in _] => destruct p
             | |- context [match ?o with Some _ => _ | None => _ end] => destruct o
             end; discriminate.
Qed.

Lemma enumerated_dates_parse_witness :
  exists days,
    get_whole_year 400 2025 = Return days /\
    length days = length (dates_of_year 2025) /\
    forall s, In s days ->
      (exists d, strptime s = Return d /\ strftime d = s /\ Date.year d = 2025) /\
      forall self calendar,
        (forall data fmt,
           judge_date_type self calendar s <> Raise (StrptimeError data fmt)) /\
        (forall y m d,
           judge_date_type self calendar s <> Raise (DateFieldError y m d)).
Proof. apply (enumerated_dates_parse 400 2025); lia. Defined.

(** C10 (as stated) fails below the year 1000: the year is printed
    without padding, [strptime] wants four digits, and the classifier
    raises on the first string of the year 999. *)
Lemma year_999_not_read_back :
  (exists days, get_whole_year 400 999 = Return ("999-01-01" :: days)) /\
  strptime "999-01-01" = Raise (StrptimeError "999-01-01" FORMAT) /\
  judge_date_type Sample.judge Sample.calendar "999-01-01" =
    Raise (StrptimeError "999-01-01" FORMAT).
Proof.
  split; [eexists; vm_compute; reflexivity|]. split; vm_compute; reflexivity.
Qed.

(** ** Claims about the classifier *)

Section Classifier.

Variable self : DateTypeJudge.
Variable calendar : Oracle.

(** The classifier is never cut off: it has no loop. *)
Lemma judge_date_type_not_cut s : judge_date_type self calendar s <> OutOfFuel.
Proof.
  unfold judge_date_type, strptime, Date.new.
  repeat match goal with
         | |- context [if ?b then _ else _] => destruct b
         | |- context [let '(_, _) := ?p in _] => destruct p
         | |- context [match ?o with Some _ => _ | None => _ end] => destruct o
         | |- context [match ?o with EmptyString => _ | String _ _ => _ end] => destruct o
         end; cbn [mbind outcome_bind];
  repeat match goal with
         | |- context [if ?b then _ else _] => destruct b
         | |- context [let '(_, _) := ?p in _] => destruct p
         | |- context [match ?o with Some _ => _ | None => _ end] => destruct o
         end; discriminate.
Qed.

(** What the classifier does with a string that parses as the date [d]. *)
Lemma judge_date_type_parsed s d :
  strptime s = Return d ->
  judge_date_type self calendar s =
  if is_holiday calendar d then
    match snd (get_holiday_detail calendar d) with
    | Some name => Return (holiday_code self, name)
    | None => Return (weekend_code self, "")
    end
  else if is_workday calendar d then
    match snd (get_holiday_detail calendar d) with
    | Some name => Return (working_holiday_code self, name)
    | None => Return (workday_code self, "")
    end
  else Raise (ValueError (UNMATCHED +:+ s)).
Proof.
  intros Hp. unfold judge_date_type. rewrite Hp. cbn [mbind outcome_bind].
  destruct (get_holiday_detail calendar d) as [on_holiday holiday_name].
  reflexivity.
Qed.

(** C1: for every date string [s] that reads as a date [d]: a holiday
    with a name is (holiday code, name), a holiday without a name is
    (weekend code, empty remark); otherwise a workday with a name is
    (make-up workday code, name) and a workday without a name is (workday
    code, empty remark); and a non-empty remark comes only with the holiday
    code or the make-up workday code.  From the year 1000 on, every string
    of the target year reads as a date of that year, so that the order
    holds of every date of the year. *)
Theorem judge_date_type_priority :
  (forall s d,
     strptime s = Return d ->
     (is_holiday calendar d = true ->
        (forall name, snd (get_holiday_detail calendar d) = Some name ->
           judge_date_type self calendar s = Return (holiday_code self, name)) /\
        (snd (get_holiday_detail calendar d) = None ->
           judge_date_type self calendar s = Return (weekend_code self, ""))) /\
     (is_holiday calendar d = false -> is_workday calendar d = true ->
        (forall name, snd (get_holiday_detail calendar d) = Some name ->
           judge_date_type self calendar s =
           Return (working_holiday_code self, name)) /\
        (snd (get_holiday_detail calendar d) = None ->
           judge_date_type self calendar s = Return (workday_code self, ""))) /\
     (forall code remark,
        judge_date_type self calendar s = Return (code, remark) -> remark <> "" ->
        code = holiday_code self \/ code = working_holiday_code self)) /\
  (forall fuel Y dates s,
     1000 <= Y -> get_whole_year fuel Y = Return dates -> In s dates ->
     exists d, strptime s = Return d /\ Date.year d = Y /\ strftime d = s).
Proof.
  split.
  - intros s d Hp. rewrite (judge_date_type_parsed _ _ Hp).
    split; [|split].
    + intros ->. split; [intros name ->|intros ->]; reflexivity.
    + intros -> ->. split; [intros name ->|intros ->]; reflexivity.
    + intros code remark.
      destruct (is_holiday calendar d), (is_workday calendar d),
        (snd (get_holiday_detail calendar d));
        intros H Hne; inversion H; subst; auto; contradiction.
  - intros fuel Y dates s HY Hrun Hs.
    destruct (get_whole_year_sound _ _ _ _ Hrun Hs) as (d & -> & Hd & Hp & _).
    exists d. split; [by apply Hp|].
    split; [by apply in_dates_of_year in Hd as [? _] | reflexivity].
Qed.

(** C5: a date for which the calendar reports neither a holiday nor a
    workday makes the classifier raise a [ValueError] whose message ends
    with the date string; and a code that the classifier returns is always
    one of the four configured codes. *)
Theorem judge_date_type_unmatched (s : string) :
  (forall d, strptime s = Return d ->
     is_holiday calendar d = false -> is_workday calendar d = false ->
     judge_date_type self calendar s = Raise (ValueError (UNMATCHED +:+ s))) /\
  (forall code remark,
     judge_date_type self calendar s = Return (code, remark) ->
     In code [workday_code self; weekend_code self; holiday_code self;
              working_holiday_code self]).
Proof.
  split.
  - intros d Hp Hh Hw. rewrite (judge_date_type_parsed _ _ Hp), Hh, Hw. reflexivity.
  - intros code remark. destruct (strptime s) as [d| |] eqn:Hp.
    + rewrite (judge_date_type_parsed _ _ Hp).
      destruct (is_holiday calendar d), (is_workday calendar d),
        (snd (get_holiday_detail calendar d));
        intros H; inversion H; subst; simpl; auto.
    + unfold judge_date_type. rewrite Hp. discriminate.
    + unfold judge_date_type. rewrite Hp. discriminate.
Qed.

End Classifier.

Lemma judge_date_type_priority_witness :
  strptime "2024-01-01" = Return (Date.mk 2024 1 1) /\
  judge_date_type Sample.judge Sample.calendar "2024-01-01" = Return ("2", "New Year's Day") /\
  judge_date_type Sample.judge Sample.calendar "2024-01-06" = Return ("1", "") /\
  judge_date_type Sample.judge Sample.calendar "2024-02-04" = Return ("3", "Spring Festival") /\
  judge_date_type Sample.judge Sample.calendar "2024-01-02" = Return ("0", "").
Proof.
  destruct (judge_date_type_priority Sample.judge Sample.calendar) as [Horder Hyear].
  assert (Hrun : get_whole_year 400 2024 = Return (map strftime (dates_of_year 2024)))
    by (vm_compute; reflexivity).
  split.
  - destruct (Hyear 400%nat 2024 _ "2024-01-01" ltac:(lia) Hrun
                (or_introl eq_refl)) as (d & Hp & _ & _).
    rewrite Hp. f_equal. vm_compute in Hp. congruence.
  - split; [|split; [|split]].
    + destruct (Horder "2024-01-01" (Date.mk 2024 1 1) eq_refl) as (Hhol & _ & _).
      apply (Hhol eq_refl). reflexivity.
    + destruct (Horder "2024-01-06" (Date.mk 2024 1 6) eq_refl) as (Hhol & _ & _).
      apply (Hhol eq_refl). reflexivity.
    + destruct (Horder "2024-02-04" (Date.mk 2024 2 4) eq_refl) as (_ & Hwork & _).
      apply (Hwork eq_refl eq_refl). reflexivity.
    + destruct (Horder "2024-01-02" (Date.mk 2024 1 2) eq_refl) as (_ & Hwork & _).
      apply (Hwork eq_refl eq_refl). reflexivity.
Defined.

Lemma judge_date_type_unmatched_witness :
  judge_date_type Sample.judge Sample.calendar_gap "2024-12-31" =
    Raise (ValueError (UNMATCHED +:+ "2024-12-31")) /\
  In "3" [workday_code Sample.judge; weekend_code Sample.judge;
          holiday_code Sample.judge; working_holiday_code Sample.judge].
Proof.
  split.
  - apply (proj1 (judge_date_type_unmatched Sample.judge Sample.calendar_gap
                    "2024-12-31") (Date.mk 2024 12 31)); reflexivity.
  - apply (proj2 (judge_date_type_unmatched Sample.judge Sample.calendar
                    "2024-02-04") "3" "Spring Festival"). reflexivity.
Defined.

(** ** Claims about the configuration *)

Section MissingKey.

Variable calendar : Oracle.
Variable absolute : string -> string.
Variable joinpath : string -> string -> string.
Variable csv_line : list string -> string.

(** The generator cannot be built when the judge cannot. *)
Lemma CalendarGenerator_init_raise config e :
  DateTypeJudge_init config = Raise e -> CalendarGenerator_init config = Raise e.
Proof. unfold CalendarGenerator_init. by intros ->. Qed.

(** Running [DateTypeJudge.__init__] along the lookups that are known. *)
Ltac eval_init :=
  unfold DateTypeJudge_init, getitem;
  repeat (cbn [mbind outcome_bind];
          match goal with H : _ !! _ = _ |- _ => rewrite H end);
  cbn [mbind outcome_bind]; try reflexivity.

(** C7 (as amended): when [date_types], a mapping from roles to mappings,
    lacks one of the four role keys, building the judge raises a
    [KeyError] that names a key which is missing: a role key absent from
    [date_types], and always such a key when every entry present carries a
    code, or else the [code] key absent from the entry of a role.  The
    generator is then not built and [main] ends with this error, whatever
    the calendar, with the file system untouched: [generate] is not
    reached.  In particular, with workday and weekend entries that carry a
    code and no holiday key the error is [KeyError "holiday"]. *)
Theorem missing_key_aborts (config : Config) :
  (exists key, In key REQUIRED_KEYS /\ date_types config !! key = None) ->
  (exists key,
     DateTypeJudge_init config = Raise (KeyError key) /\
     CalendarGenerator_init config = Raise (KeyError key) /\
     (forall fuel w,
        main calendar absolute joinpath csv_line fuel (Return config) w =
        (Raise (KeyError key), w)) /\
     ((In key REQUIRED_KEYS /\ date_types config !! key = None) \/
      (key = "code" /\
       exists role entry, In role REQUIRED_KEYS /\
         date_types config !! role = Some entry /\ entry !! "code" = None)) /\
     ((forall role entry, date_types config !! role = Some entry ->
         is_Some (entry !! "code")) ->
      In key REQUIRED_KEYS /\ date_types config !! key = None)) /\
  (forall workday weekend,
     date_types config !! "workday" = Some workday -> is_Some (workday !! "code") ->
     date_types config !! "weekend" = Some weekend -> is_Some (weekend !! "code") ->
     date_types config !! "holiday" = None ->
     DateTypeJudge_init config = Raise (KeyError "holiday")).
Proof.
  intros (key & Hkey & Hnone). split.
  - assert (Hmain : forall k, DateTypeJudge_init config = Raise (KeyError k) ->
              CalendarGenerator_init config = Raise (KeyError k) /\
              forall fuel w,
                main calendar absolute joinpath csv_line fuel (Return config) w =
                (Raise (KeyError k), w)).
    { intros k Hk. pose proof (CalendarGenerator_init_raise _ _ Hk) as Hg.
      split; [exact Hg|]. intros fuel w. unfold main. by rewrite Hg. }
    assert (Hrole : forall role entry,
              In role REQUIRED_KEYS -> date_types config !! role = Some entry ->
              entry !! "code" = None ->
              DateTypeJudge_init config = Raise (KeyError "code") ->
              exists k, DateTypeJudge_init config = Raise (KeyError k) /\
                CalendarGenerator_init config = Raise (KeyError k) /\
                (forall fuel w,
                   main calendar absolute joinpath csv_line fuel (Return config) w =
                   (Raise (KeyError k), w)) /\
                ((In k REQUIRED_KEYS /\ date_types config !! k = None) \/
                 (k = "code" /\
                  exists role entry, In role REQUIRED_KEYS /\
                    date_types config !! role = Some entry /\ entry !! "code" = None)) /\
                ((forall role entry, date_types config !! role = Some entry ->
                    is_Some (entry !! "code")) ->
                 In k REQUIRED_KEYS /\ date_types config !! k = None)).
    { intros role entry Hin Hsome Hcode Hinit. exists "code".
      destruct (Hmain _ Hinit) as [Hg Hm].
      split; [exact Hinit|]. split; [exact Hg|]. split; [exact Hm|]. split.
      - right. split; [reflexivity|]. exists role, entry. auto.
      - intros Hall. destruct (Hall _ _ Hsome) as [c Hc]. congruence. }
    assert (Habsent : forall role,
              In role REQUIRED_KEYS -> date_types config !! role = None ->
              DateTypeJudge_init config = Raise (KeyError role) ->
              exists k, DateTypeJudge_init config = Raise (KeyError k) /\
                CalendarGenerator_init config = Raise (KeyError k) /\
                (forall fuel w,
                   main calendar absolute joinpath csv_line fuel (Return config) w =
                   (Raise (KeyError k), w)) /\
                ((In k REQUIRED_KEYS /\ date_types config !! k = None) \/
                 (k = "code" /\
                  exists role entry, In role REQUIRED_KEYS /\
                    date_types config !! role = Some entry /\ entry !! "code" = None)) /\
                ((forall role entry, date_types config !! role = Some entry ->
                    is_Some (entry !! "code")) ->
                 In k REQUIRED_KEYS /\ date_types config !! k = None)).
    { intros role Hin Hno Hinit. exists role.
      destruct (Hmain _ Hinit) as [Hg Hm]. auto 10. }
    destruct (date_types config !! "workday") as [e1|] eqn:E1;
      [|apply (Habsent "workday"); [simpl; auto | exact E1 | eval_init]].
    destruct (e1 !! "code") as [c1|] eqn:C1;
      [|apply (Hrole "workday" e1); [simpl; auto | exact E1 | exact C1 | eval_init]].
    destruct (date_types config !! "weekend") as [e2|] eqn:E2;
      [|apply (Habsent "weekend"); [simpl; auto | exact E2 | eval_init]].
    destruct (e2 !! "code") as [c2|] eqn:C2;
      [|apply (Hrole "weekend" e2); [simpl; auto | exact E2 | exact C2 | eval_init]].
    destruct (date_types config !! "holiday") as [e3|] eqn:E3;
      [|apply (Habsent "holiday"); [simpl; auto | exact E3 | eval_init]].
    destruct (e3 !! "code") as [c3|] eqn:C3;
      [|apply (Hrole "holiday" e3); [simpl; auto | exact E3 | exact C3 | eval_init]].
    destruct (date_types config !! "working_holiday") as [e4|] eqn:E4;
      [|apply (Habsent "working_holiday"); [simpl; auto 10 | exact E4 | eval_init]].
    destruct (e4 !! "code") as [c4|] eqn:C4;
      [|apply (Hrole "working_holiday" e4);
        [simpl; auto 10 | exact E4 | exact C4 | eval_init]].
    exfalso. simpl in Hkey.
    destruct Hkey as [<- | [<- | [<- | [<- | []]]]]; congruence.
  - intros workday weekend E1 [c1 C1] E2 [c2 C2] E3.
    eval_init.
Qed.

End MissingKey.

Lemma missing_key_aborts_witness :
  DateTypeJudge_init Sample.config_without_holiday = Raise (KeyError "holiday") /\
  main Sample.calendar Sample.absolute Sample.joinpath Sample.csv_line 400
    (Return Sample.config_without_holiday) Sample.world =
  (Raise (KeyError "holiday"), Sample.world).
Proof.
  assert (Hmissing : exists key, In key REQUIRED_KEYS /\
            date_types Sample.config_without_holiday !! key = None).
  { exists "holiday". split; [simpl; auto | vm_compute; reflexivity]. }
  destruct (missing_key_aborts Sample.calendar Sample.absolute Sample.joinpath
              Sample.csv_line Sample.config_without_holiday Hmissing)
    as [(key & Hinit & _ & Hmain & _) Hholiday].
  assert (Hh : DateTypeJudge_init Sample.config_without_holiday =
               Raise (KeyError "holiday")).
  { apply (Hholiday (Sample.entry "0" "workday") (Sample.entry "1" "weekend"));
      first [by eexists | vm_compute; reflexivity]. }
  split; [exact Hh|].
  rewrite Hh in Hinit. inversion Hinit; subst. apply Hmain.
Defined.

(** C7 (as stated) fails when an entry before the missing role has no
    [code]: without the holiday key and with a weekend entry that lacks
    its code, the error names [code], which is no role key of
    [date_types], and not the missing [holiday]. *)
Lemma missing_holiday_reports_code :
  date_types Scenario.config_weekend_without_code !! "holiday" = None /\
  ~ In "code" REQUIRED_KEYS /\
  DateTypeJudge_init Scenario.config_weekend_without_code = Raise (KeyError "code") /\
  CalendarGenerator_init Scenario.config_weekend_without_code =
    Raise (KeyError "code") /\
  main Sample.calendar Sample.absolute Sample.joinpath Sample.csv_line 400
    (Return Scenario.config_weekend_without_code) Sample.world =
  (Raise (KeyError "code"), Sample.world).
Proof.
  split; [vm_compute; reflexivity|].
  split; [intros [H | [H | [H | [H | []]]]]; discriminate|].
  split; [vm_compute; reflexivity|].
  split; vm_compute; reflexivity.
Qed.

(** ** Strings, apostrophes and literals *)

Section Quotes.

Lemma app_cons c s t : String c s +:+ t = String c (s +:+ t).
Proof. reflexivity. Qed.

Lemma str_app_assoc a b c : (a +:+ b) +:+ c = a +:+ (b +:+ c).
Proof. induction a as [|x a IH]; [reflexivity|]. rewrite !app_cons. by rewrite IH. Qed.

Lemma count_quotes_app a b :
  count_quotes (a +:+ b) = (count_quotes a + count_quotes b)%nat.
Proof.
  induction a as [|x a IH]; [reflexivity|].
  rewrite app_cons. cbn [count_quotes]. rewrite IH. by destruct (Ascii.eqb x "'").
Qed.

Lemma escape_quotes_app a b :
  escape_quotes (a +:+ b) = escape_quotes a +:+ escape_quotes b.
Proof.
  induction a as [|x a IH]; [reflexivity|].
  rewrite app_cons. cbn [escape_quotes]. rewrite IH.
  by destruct (Ascii.eqb x "'").
Qed.

(** Each apostrophe is doubled. *)
Lemma count_quotes_escape r :
  count_quotes (escape_quotes r) = (2 * count_quotes r)%nat.
Proof.
  induction r as [|x r IH]; [reflexivity|]. cbn [escape_quotes count_quotes].
  destruct (Ascii.eqb x "'") eqn:E; cbn [count_quotes]; rewrite ?E, IH; [|reflexivity].
  change (Ascii.eqb "'" "'") with true. cbn iota. lia.
Qed.

(** Nothing else is touched. *)
Lemma escape_quotes_plain r : count_quotes r = O -> escape_quotes r = r.
Proof.
  induction r as [|x r IH]; [reflexivity|]. cbn [escape_quotes count_quotes].
  destruct (Ascii.eqb x "'"); [discriminate|]. intros H. by rewrite IH.
Qed.

Lemma without_quotes_escape r : without_quotes (escape_quotes r) = without_quotes r.
Proof.
  induction r as [|x r IH]; [reflexivity|]. cbn [escape_quotes without_quotes].
  destruct (Ascii.eqb x "'") eqn:E; cbn [without_quotes]; rewrite ?E, IH; reflexivity.
Qed.

(** The literal written for a remark reads back as the remark. *)
Lemma scan_literal_escape r : forall rest,
  (forall rest', rest <> String "'" rest') ->
  scan_literal (escape_quotes r +:+ String "'" rest) = Some (r, rest).
Proof.
  induction r as [|x r IH]; intros rest Hrest.
  - change (scan_literal (String "'" rest) = Some ("", rest)).
    cbn [scan_literal]. change (Ascii.eqb "'" "'") with true. cbn iota.
    destruct rest as [|c rest']; [reflexivity|].
    destruct (Ascii.eqb c "'") eqn:E; [|reflexivity].
    apply Ascii.eqb_eq in E as ->. by destruct (Hrest rest').
  - cbn [escape_quotes]. destruct (Ascii.eqb x "'") eqn:E.
    + apply Ascii.eqb_eq in E as ->. rewrite !app_cons.
      cbn [scan_literal]. change (Ascii.eqb "'" "'") with true. cbn iota.
      rewrite IH by assumption. reflexivity.
    + rewrite app_cons. cbn [scan_literal]. rewrite E, IH by assumption.
      reflexivity.
Qed.

Lemma strip_prefix_app p s : strip_prefix p (p +:+ s) = Some s.
Proof.
  induction p as [|x p IH]; [by destruct s|].
  rewrite app_cons. cbn [strip_prefix]. by rewrite Ascii.eqb_refl.
Qed.

Lemma count_quotes_uint d : count_quotes (NilEmpty.string_of_uint d) = O.
Proof. induction d; cbn; assumption || reflexivity. Qed.

(** A printed integer holds no apostrophe. *)
Lemma count_quotes_str_int n : count_quotes (str_int n) = O.
Proof.
  assert (H : forall d, count_quotes (NilZero.string_of_uint d) = O).
  { intros d. unfold NilZero.string_of_uint.
    destruct d; try reflexivity; apply (count_quotes_uint (_ _)). }
  unfold str_int, NilZero.string_of_int.
  destruct (Z.to_int n) as [d|d]; [apply H|].
  cbn [count_quotes]. change (Ascii.eqb "-" "'") with false. apply H.
Qed.

End Quotes.

(** ** The loop of [generate] *)

Section GenerateLoop.

Variable calendar : Oracle.
Variable self : CalendarGenerator.

Lemma loc_set_fresh rs label row :
  (forall l, In l (map fst rs) -> (l < label)%nat) ->
  loc_set rs label row = rs ++ [(label, row)].
Proof.
  induction rs as [|[l r] rs IH]; intros Hfresh; [reflexivity|].
  cbn [loc_set]. destruct (Nat.eqb_spec l label) as [->|_].
  - specialize (Hfresh label (or_introl eq_refl)). lia.
  - cbn [app]. f_equal. apply IH. intros l' Hl'. apply Hfresh. by right.
Qed.

(** When the loop returns, every date string was classified, and the
    statements and the rows were extended by one entry per date string, in
    order, the rows under the labels of [enumerate]. *)
Lemma generate_loop_returns dates : forall start sql_statements df sqls' df',
  (forall l, In l (map fst (rows df)) -> (l < start)%nat) ->
  generate_loop calendar self (enumerate_from start dates) sql_statements df =
    Return (sqls', df') ->
  exists classes,
    Forall2 (fun s class =>
               judge_date_type (date_judge self) calendar s = Return class)
            dates classes /\
    sqls' = sql_statements ++
            map (statement_of_row self) (zip_with (row_for self) dates classes) /\
    rows df' = rows df ++ enumerate_from start (zip_with (row_for self) dates classes) /\
    columns df' = columns df.
Proof.
  induction dates as [|s dates IH]; intros start sqls df sqls' df' Hfresh Hrun.
  - cbn in Hrun. inversion Hrun; subst. exists [].
    split; [constructor|]. cbn. by rewrite !app_nil_r.
  - cbn [enumerate_from generate_loop] in Hrun.
    destruct (judge_date_type (date_judge self) calendar s)
      as [[date_type remark]| |] eqn:Hj; try discriminate.
    cbn [mbind outcome_bind] in Hrun.
    apply IH in Hrun as (classes & Hall & -> & Hrows & Hcols).
    + exists ((date_type, remark) :: classes).
      split; [by constructor|].
      cbn [zip_with map enumerate_from]. split; [by rewrite <- app_assoc|].
      split; [|exact Hcols].
      rewrite Hrows. cbn [df_loc_set rows].
      rewrite loc_set_fresh by assumption. by rewrite <- app_assoc.
    + cbn [df_loc_set rows]. rewrite loc_set_fresh by assumption.
      intros l. rewrite map_app, in_app_iff. cbn.
      intros [Hl | [<- | []]]; [apply Hfresh in Hl|]; lia.
Qed.

(** When a date string fails to classify, the loop raises. *)
Lemma generate_loop_raises items : forall sql_statements df,
  (exists item e, In item items /\
     judge_date_type (date_judge self) calendar (snd item) = Raise e) ->
  exists item e, In item items /\
    judge_date_type (date_judge self) calendar (snd item) = Raise e /\
    generate_loop calendar self items sql_statements df = Raise e.
Proof.
  induction items as [|[index s] items IH]; intros sqls df (item & e & Hin & He).
  - destruct Hin.
  - cbn [generate_loop].
    destruct (judge_date_type (date_judge self) calendar s)
      as [[date_type remark]|e'|] eqn:Hj.
    + destruct Hin as [<- | Hin]; [cbn in He; congruence|].
      cbn [mbind outcome_bind].
      destruct (IH (sqls ++ [generate_sql self (target_year (config self)) s
                                date_type remark])
                  (df_loc_set df index
                     (mkRow (target_year (config self)) s date_type remark))
                  (ex_intro _ item (ex_intro _ e (conj Hin He))))
        as (item' & e'' & Hin' & He' & Hrun).
      exists item', e''. split; [by right|]. by split.
    + exists (index, s), e'. split; [by left|]. by split.
    + by destruct (judge_date_type_not_cut _ _ _ Hj).
Qed.

Lemma in_enumerate_from {A : Type} (xs : list A) : forall start x,
  In x xs -> exists i, In (i, x) (enumerate_from start xs).
Proof.
  induction xs as [|y xs IH]; intros start x []; cbn [enumerate_from].
  - subst. exists start. by left.
  - destruct (IH (S start) x H) as [i Hi]. exists i. by right.
Qed.

Lemma enumerate_from_snd {A : Type} (xs : list A) : forall start i x,
  In (i, x) (enumerate_from start xs) -> In x xs.
Proof.
  induction xs as [|y xs IH]; intros start i x; cbn [enumerate_from]; [tauto|].
  intros [E | H]; [inversion E; by left | right; eauto].
Qed.

Lemma enumerate_from_lookup {A : Type} (xs : list A) : forall start (N : nat),
  enumerate_from start xs !! N = (fun x => ((start + N)%nat, x)) <$> xs !! N.
Proof.
  induction xs as [|y xs IH]; intros start N; [by destruct N|].
  destruct N as [|N]; cbn [enumerate_from].
  - cbn. by rewrite Nat.add_0_r.
  - cbn [lookup list_lookup]. rewrite IH. by rewrite Nat.add_succ_r.
Qed.

Lemma length_enumerate_from {A : Type} (xs : list A) start :
  length (enumerate_from start xs) = length xs.
Proof. revert start. induction xs; intros; cbn; [reflexivity|]. by rewrite IHxs. Qed.

(** The loop depends on the calendar only through the classes of its
    date strings. *)
Lemma generate_loop_ext calendar' items : forall sql_statements df,
  (forall item, In item items ->
     judge_date_type (date_judge self) calendar (snd item) =
     judge_date_type (date_judge self) calendar' (snd item)) ->
  generate_loop calendar self items sql_statements df =
  generate_loop calendar' self items sql_statements df.
Proof.
  induction items as [|[index s] items IH]; intros sqls df Hsame; [reflexivity|].
  cbn [generate_loop].
  pose proof (Hsame (index, s) (or_introl eq_refl)) as E. cbn [snd] in E.
  rewrite <- E.
  destruct (judge_date_type (date_judge self) calendar s) as [[date_type remark]| |];
    [|reflexivity|reflexivity].
  cbn [mbind outcome_bind]. apply IH. intros item Hin. apply Hsame. by right.
Qed.

End GenerateLoop.

(** ** Claims about the SQL statement *)

Section Statement.

Variable self : CalendarGenerator.

(** The statement, as a prefix, four literals and their separators. *)
Lemma generate_sql_shape year date date_type remark :
  generate_sql self year date date_type remark =
  ("INSERT INTO " +:+ table_name (config self) +:+ " VALUES ('") +:+
  (str_int year +:+ String "'" (", '" +:+
  (date +:+ String "'" (", '" +:+
  (date_type +:+ String "'" (", '" +:+
  (escape_quotes remark +:+ String "'" (");" +:+ LF)))))))).
Proof. unfold generate_sql. rewrite !str_app_assoc. reflexivity. Qed.

Lemma scan_literal_plain v rest :
  count_quotes v = O -> (forall rest', rest <> String "'" rest') ->
  scan_literal (v +:+ String "'" rest) = Some (v, rest).
Proof.
  intros Hv Hrest. rewrite <- (escape_quotes_plain v Hv) at 1.
  by apply scan_literal_escape.
Qed.

Lemma count_quotes_generate_sql year date date_type remark :
  count_quotes (generate_sql self year date date_type remark) =
  (8 + count_quotes (table_name (config self)) + count_quotes date +
   count_quotes date_type + 2 * count_quotes remark)%nat.
Proof.
  assert (Hq : forall x, count_quotes (String "'" x) = S (count_quotes x))
    by reflexivity.
  rewrite generate_sql_shape.
  rewrite !count_quotes_app, !Hq, !count_quotes_app, !Hq, !count_quotes_app, !Hq,
    !count_quotes_app, !Hq, !count_quotes_app.
  rewrite count_quotes_str_int, count_quotes_escape.
  change (count_quotes "INSERT INTO ") with O.
  change (count_quotes " VALUES ('") with 1%nat.
  change (count_quotes ", '") with 1%nat.
  change (count_quotes ");") with O.
  change (count_quotes LF) with O.
  lia.
Qed.

End Statement.

(** C3 (as amended): the renderer doubles every apostrophe of the remark
    and changes nothing else in it; the table name, the date and the type
    code go into the statement as they are.  So, for every remark, when
    these three hold no apostrophe, the statement holds an even number of
    apostrophes and reads back as the four values, the remark among them. *)
Theorem remark_quotes_doubled (self : CalendarGenerator) (year : Z)
    (date date_type remark : string) :
  count_quotes (table_name (config self)) = O ->
  count_quotes date = O -> count_quotes date_type = O ->
  count_quotes (escape_quotes remark) = (2 * count_quotes remark)%nat /\
  without_quotes (escape_quotes remark) = without_quotes remark /\
  (forall a b, escape_quotes (a +:+ b) = escape_quotes a +:+ escape_quotes b) /\
  escape_quotes "'" = "''" /\
  (forall plain, count_quotes plain = O -> escape_quotes plain = plain) /\
  Nat.even (count_quotes (generate_sql self year date date_type remark)) = true /\
  read_insert (table_name (config self))
    (generate_sql self year date date_type remark) =
  Some [str_int year; date; date_type; remark].
Proof.
  intros Htable Hdate Htype.
  split; [apply count_quotes_escape|].
  split; [apply without_quotes_escape|].
  split; [apply escape_quotes_app|].
  split; [reflexivity|].
  split; [apply escape_quotes_plain|].
  split.
  - rewrite count_quotes_generate_sql, Htable, Hdate, Htype.
    replace (8 + 0 + 0 + 0 + 2 * count_quotes remark)%nat
      with (2 * (4 + count_quotes remark))%nat by lia.
    apply Nat.even_spec. by eexists.
  - rewrite generate_sql_shape. unfold read_insert.
    rewrite strip_prefix_app. cbn [mbind option_bind].
    rewrite scan_literal_plain; [|apply count_quotes_str_int|discriminate].
    cbn [mbind option_bind]. rewrite strip_prefix_app. cbn [mbind option_bind].
    rewrite scan_literal_plain; [|assumption|discriminate].
    cbn [mbind option_bind]. rewrite strip_prefix_app. cbn [mbind option_bind].
    rewrite scan_literal_plain; [|assumption|discriminate].
    cbn [mbind option_bind]. rewrite strip_prefix_app. cbn [mbind option_bind].
    rewrite scan_literal_escape by discriminate.
    cbn [mbind option_bind]. by rewrite String.eqb_refl.
Qed.

Lemma remark_quotes_doubled_witness :
  escape_quotes "New Year's Day" = "New Year''s Day" /\
  Nat.even (count_quotes (generate_sql Sample.generator 2024 "2024-01-01" "2"
                            "New Year's Day")) = true /\
  read_insert "WORK_CALENDAR"
    (generate_sql Sample.generator 2024 "2024-01-01" "2" "New Year's Day") =
  Some ["2024"; "2024-01-01"; "2"; "New Year's Day"].
Proof.
  destruct (remark_quotes_doubled Sample.generator 2024 "2024-01-01" "2"
              "New Year's Day" eq_refl eq_refl eq_refl)
    as (_ & _ & _ & _ & _ & Heven & Hread).
  split; [reflexivity|]. split; [exact Heven | exact Hread].
Defined.

(** C3 (as stated) fails when a configured code holds an apostrophe: it is
    written into the statement as it is. *)
Lemma quoted_code_unbalanced :
  CalendarGenerator_init Sample.config_quoted_code =
    Return Sample.generator_quoted_code /\
  judge_date_type (date_judge Sample.generator_quoted_code) Sample.calendar
    "2024-01-01" = Return ("H'", "New Year's Day") /\
  Nat.even (count_quotes (generate_sql Sample.generator_quoted_code 2024
                            "2024-01-01" "H'" "New Year's Day")) = false /\
  read_insert "WORK_CALENDAR"
    (generate_sql Sample.generator_quoted_code 2024 "2024-01-01" "H'"
       "New Year's Day") = None.
Proof. repeat split; vm_compute; reflexivity. Qed.

(** ** Claims about a run of [generate] *)

Section Run.

Variable calendar : Oracle.
Variable absolute : string -> string.
Variable joinpath : string -> string -> string.
Variable csv_line : list string -> string.
Variable self : CalendarGenerator.

Local Abbreviation year := (target_year (config self)).
Local Abbreviation judged := (judge_date_type (date_judge self) calendar).

(** The records of a run that reaches [_save_files]. *)
Lemma generate_records_returns fuel sql_statements df :
  generate_records calendar fuel self = Return (sql_statements, df) ->
  exists dates classes,
    get_whole_year fuel year = Return dates /\
    Forall2 (fun s class => judged s = Return class) dates classes /\
    sql_statements = map (statement_of_row self) (zip_with (row_for self) dates classes) /\
    rows df = enumerate (zip_with (row_for self) dates classes) /\
    columns df = ["YEAR"; "CALENDAR_DATE"; "DATE_TYPE"; "COMMENTS"].
Proof.
  unfold generate_records. intros Hrun.
  destruct (get_whole_year fuel year) as [dates| |] eqn:Hdates; try discriminate.
  cbn [mbind outcome_bind] in Hrun.
  apply generate_loop_returns in Hrun as (classes & Hall & -> & Hrows & Hcols);
    [|intros l []].
  exists dates, classes. auto.
Qed.

Lemma length_zip_rows (dates : list string) (classes : list (string * string)) :
  Forall2 (fun s class => judged s = Return class) dates classes ->
  length (zip_with (row_for self) dates classes) = length dates.
Proof. induction 1; cbn; [reflexivity|]. by f_equal. Qed.

Lemma lookup_zip_rows (dates : list string) (classes : list (string * string)) :
  Forall2 (fun s class => judged s = Return class) dates classes ->
  forall (N : nat) s, dates !! N = Some s ->
  exists class, judged s = Return class /\
    zip_with (row_for self) dates classes !! N = Some (row_for self s class).
Proof.
  induction 1 as [|s0 class0 dates classes Hj Hall IH]; intros N s HN;
    [by destruct N|].
  destruct N as [|N]; cbn in HN.
  - inversion HN; subst. exists class0. by split.
  - apply IH in HN as (class & ? & ?). exists class. by split.
Qed.

(** C8: the statement for a record is
    [INSERT INTO <table_name> VALUES ('<year>', '<date>', '<type_code>', '<escaped remark>');]
    followed by a line feed, with the table name of the configuration and
    the year, date and type code of the record as they are; and a run
    that reaches the saving of files has built exactly one statement per
    record, the statement of that record, in the order of the records. *)
Theorem generate_sql_statement :
  (forall yr date date_type remark,
     generate_sql self yr date date_type remark =
     insert_statement (table_name (config self)) (str_int yr) date date_type
       (escape_quotes remark) +:+ LF) /\
  (forall fuel sql_statements df,
     generate_records calendar fuel self = Return (sql_statements, df) ->
     sql_statements = map (fun '(_, r) => statement_of_row self r) (rows df)).
Proof.
  split.
  - intros yr date date_type remark. unfold generate_sql, insert_statement.
    rewrite !str_app_assoc. reflexivity.
  - intros fuel sqls df Hrun.
    apply generate_records_returns in Hrun as (dates & classes & _ & _ & -> & -> & _).
    unfold enumerate. generalize 0%nat.
    induction (zip_with (row_for self) dates classes) as [|r rs IH]; intros start;
      [reflexivity|].
    cbn [map enumerate_from]. f_equal. apply IH.
Qed.

(** The two files that [_save_files] writes. *)
Lemma save_files_written sql_statements df w :
  let base := joinpath (absolute (save_path (config self)))
                (str_int year +:+ "Day") in
  let w' := _save_files absolute joinpath csv_line self sql_statements df w in
  files w' !! (base +:+ ".sql") = Some (concat_str sql_statements) /\
  files w' !! (base +:+ ".csv") = Some (to_csv csv_line df).
Proof.
  cbn zeta. unfold _save_files, ensure_dir_exists, write_file. cbn [files].
  split.
  - rewrite lookup_insert_ne; [apply lookup_insert_eq|].
    intros E. apply (inj (String.app _)) in E. discriminate.
  - apply lookup_insert_eq.
Qed.

(** C4: in a run that reaches the saving of files, the statements and the
    rows are as many as the dates of the year; statement N and row N come
    from date N: the row holds the year, that date, its type code and its
    remark, under the label N, and the statement is the one of that row.
    The SQL file is the statements in this order and the tabular file is
    the rows of the frame in this order. *)
Theorem sql_and_table_aligned (fuel : nat) (sql_statements : list string)
    (df : DataFrame) :
  generate_records calendar fuel self = Return (sql_statements, df) ->
  exists dates,
    get_whole_year fuel year = Return dates /\
    length sql_statements = length dates /\
    length (rows df) = length dates /\
    (forall (N : nat) date_str, dates !! N = Some date_str ->
       exists row,
         rows df !! N = Some (N, row) /\
         sql_statements !! N = Some (statement_of_row self row) /\
         YEAR row = year /\ CALENDAR_DATE row = date_str /\
         judged date_str = Return (DATE_TYPE row, COMMENTS row)) /\
    (forall w,
       let base := joinpath (absolute (save_path (config self)))
                     (str_int year +:+ "Day") in
       let result := generate calendar absolute joinpath csv_line fuel self w in
       fst result = Return tt /\
       files (snd result) !! (base +:+ ".sql") = Some (concat_str sql_statements) /\
       files (snd result) !! (base +:+ ".csv") =
         Some (BOM +:+ csv_line (columns df) +:+
               concat_str (map (fun '(_, r) =>
                 csv_line [str_int (YEAR r); CALENDAR_DATE r; DATE_TYPE r; COMMENTS r])
                 (rows df)))).
Proof.
  intros Hrun.
  destruct (generate_records_returns _ _ _ Hrun)
    as (dates & classes & Hdates & Hall & Hsql & Hrows & Hcols).
  exists dates. split; [exact Hdates|].
  split; [by rewrite Hsql, length_map, length_zip_rows|].
  split; [unfold enumerate in Hrows;
          by rewrite Hrows, length_enumerate_from, length_zip_rows|].
  split.
  - intros N s HN.
    destruct (lookup_zip_rows _ _ Hall N s HN) as ([date_type remark] & Hj & Hrow).
    exists (row_for self s (date_type, remark)).
    split; [|split; [|by repeat split]].
    + unfold enumerate in Hrows. rewrite Hrows, enumerate_from_lookup, Hrow.
      reflexivity.
    + rewrite Hsql, list_lookup_fmap, Hrow. reflexivity.
  - intros w. cbn zeta. unfold generate. rewrite Hrun. cbn [fst snd].
    split; [reflexivity|]. apply save_files_written.
Qed.

(** C6: when some date of the year fails to classify, [generate] raises
    the error of such a date and leaves the file system as it was; and a
    run that changed the file system has classified every date. *)
Theorem failed_classification_writes_nothing (fuel : nat) (dates : list string)
    (w : World) :
  get_whole_year fuel year = Return dates ->
  ((exists s e, In s dates /\ judged s = Raise e) ->
   exists s e, In s dates /\ judged s = Raise e /\
     generate calendar absolute joinpath csv_line fuel self w = (Raise e, w)) /\
  (forall r w',
     generate calendar absolute joinpath csv_line fuel self w = (r, w') ->
     w' <> w ->
     r = Return tt /\ forall s, In s dates -> exists class, judged s = Return class).
Proof.
  intros Hdates. split.
  - intros (s & e & Hin & He).
    destruct (in_enumerate_from dates 0%nat s Hin) as [i Hi].
    destruct (generate_loop_raises calendar self (enumerate dates) []
                (mkDataFrame ["YEAR"; "CALENDAR_DATE"; "DATE_TYPE"; "COMMENTS"] [])
                (ex_intro _ (i, s) (ex_intro _ e (conj Hi He))))
      as ([i' s'] & e' & Hin' & He' & Hloop).
    exists s', e'. split; [eapply enumerate_from_snd, Hin'|].
    split; [exact He'|].
    unfold generate, generate_records. rewrite Hdates. cbn [mbind outcome_bind].
    by rewrite Hloop.
  - intros r w' Hgen Hne. unfold generate in Hgen.
    destruct (generate_records calendar fuel self) as [[sqls df]| |] eqn:Hrun;
      inversion Hgen; subst; try contradiction.
    split; [reflexivity|].
    destruct (generate_records_returns _ _ _ Hrun)
      as (dates' & classes & Hdates' & Hall & _).
    assert (dates' = dates) as -> by congruence.
    intros s Hs. apply list_elem_of_In, list_elem_of_lookup in Hs as [N HN].
    destruct (lookup_zip_rows _ _ Hall N s HN) as (class & Hj & _). eauto.
Qed.

End Run.

(** C9: two runs for the same generator (year and configuration), on the
    same file system, with calendars that give the same answers about the
    dates of the year, end alike and leave the same files: the bytes
    written depend on the calendar only through these answers. *)
Theorem generation_deterministic (calendar1 calendar2 : Oracle)
    (absolute : string -> string) (joinpath : string -> string -> string)
    (csv_line : list string -> string) (fuel : nat) (self : CalendarGenerator)
    (w : World) :
  (forall d, In d (dates_of_year (target_year (config self))) ->
     same_answers calendar1 calendar2 d) ->
  generate_records calendar1 fuel self = generate_records calendar2 fuel self /\
  generate calendar1 absolute joinpath csv_line fuel self w =
  generate calendar2 absolute joinpath csv_line fuel self w /\
  main calendar1 absolute joinpath csv_line fuel (Return (config self)) w =
  main calendar2 absolute joinpath csv_line fuel (Return (config self)) w.
Proof.
  intros Hsame.
  assert (Hrec : forall g : CalendarGenerator, config g = config self ->
            generate_records calendar1 fuel g = generate_records calendar2 fuel g).
  { intros g Hg. unfold generate_records. rewrite Hg.
    destruct (get_whole_year fuel (target_year (config self))) as [dates| |] eqn:Hdates;
      [|reflexivity|reflexivity].
    cbn [mbind outcome_bind]. apply generate_loop_ext.
    intros [i s] Hin. cbn [snd]. apply enumerate_from_snd in Hin.
    destruct (get_whole_year_sound _ _ _ _ Hdates Hin) as (d & _ & Hd & _ & Hinv).
    destruct (strptime s) as [d'| |] eqn:Hp.
    - destruct (Hinv d' eq_refl) as [-> _].
      rewrite !(judge_date_type_parsed _ _ _ _ Hp).
      destruct (Hsame d Hd) as (-> & -> & ->). reflexivity.
    - unfold judge_date_type. rewrite Hp. reflexivity.
    - unfold judge_date_type. rewrite Hp. reflexivity. }
  split; [by apply Hrec|]. split.
  - unfold generate. by rewrite Hrec.
  - unfold main. destruct (CalendarGenerator_init (config self)) as [g| |] eqn:Hg;
      [|reflexivity|reflexivity].
    unfold generate. rewrite Hrec; [reflexivity|].
    unfold CalendarGenerator_init in Hg.
    destruct (DateTypeJudge_init (config self)); inversion Hg. reflexivity.
Qed.

(** ** The claims on the sample data *)

Lemma sample_run_returns :
  exists sql_statements df,
    generate_records Sample.calendar 400 Sample.generator = Return (sql_statements, df).
Proof.
  destruct (generate_records Sample.calendar 400 Sample.generator)
    as [[sqls df]|e|] eqn:E; [by eauto| |]; vm_compute in E; discriminate.
Qed.

Lemma generate_sql_statement_witness :
  generate_sql Sample.generator 2024 "2024-01-01" "2" "New Year's Day" =
    "INSERT INTO WORK_CALENDAR VALUES ('2024', '2024-01-01', '2', 'New Year''s Day');"
    +:+ LF /\
  exists sql_statements df,
    generate_records Sample.calendar 400 Sample.generator = Return (sql_statements, df) /\
    sql_statements = map (fun '(_, r) => statement_of_row Sample.generator r) (rows df).
Proof.
  destruct (generate_sql_statement Sample.calendar Sample.generator) as [Hform Hone].
  split; [apply Hform|].
  destruct sample_run_returns as (sqls & df & E).
  exists sqls, df. split; [exact E | exact (Hone 400%nat sqls df E)].
Defined.

Lemma sql_and_table_aligned_witness :
  exists sql_statements df,
    generate_records Sample.calendar 400 Sample.generator = Return (sql_statements, df) /\
    length sql_statements = 366%nat /\ length (rows df) = 366%nat /\
    exists row,
      rows df !! 34%nat = Some (34%nat, row) /\
      sql_statements !! 34%nat = Some (statement_of_row Sample.generator row) /\
      CALENDAR_DATE row = "2024-02-04" /\ DATE_TYPE row = "3" /\
      COMMENTS row = "Spring Festival".
Proof.
  destruct sample_run_returns as (sqls & df & E).
  destruct (sql_and_table_aligned Sample.calendar Sample.absolute Sample.joinpath
              Sample.csv_line Sample.generator 400 sqls df E)
    as (dates & Hdates & Hlen1 & Hlen2 & Halign & _).
  assert (dates = map strftime (dates_of_year 2024)) as ->.
  { change (target_year (config Sample.generator)) with 2024 in Hdates.
    rewrite get_whole_year_returns in Hdates by lia. congruence. }
  exists sqls, df. split; [exact E|].
  split; [rewrite Hlen1; reflexivity|]. split; [rewrite Hlen2; reflexivity|].
  destruct (Halign 34%nat "2024-02-04" eq_refl) as (row & Hrow & Hsql & _ & Hd & Hj).
  exists row. split; [exact Hrow|]. split; [exact Hsql|]. split; [exact Hd|].
  assert (Hj' : judge_date_type Sample.judge Sample.calendar "2024-02-04" =
                Return ("3", "Spring Festival")) by reflexivity.
  change (judge_date_type (date_judge Sample.generator) Sample.calendar "2024-02-04")
    with (judge_date_type Sample.judge Sample.calendar "2024-02-04") in Hj.
  rewrite Hj' in Hj. inversion Hj. by split.
Defined.

Lemma failed_classification_writes_nothing_witness :
  exists e,
    generate Sample.calendar_gap Sample.absolute Sample.joinpath Sample.csv_line 400
      Sample.generator Sample.world = (Raise e, Sample.world).
Proof.
  assert (Hdates : get_whole_year 400 (target_year (config Sample.generator)) =
                   Return (map strftime (dates_of_year 2024)))
    by (apply get_whole_year_returns; cbn; lia).
  destruct (failed_classification_writes_nothing Sample.calendar_gap Sample.absolute
              Sample.joinpath Sample.csv_line Sample.generator 400 _ Sample.world
              Hdates) as [Hraise _].
  destruct Hraise as (s & e & _ & _ & Hgen); [|by exists e].
  exists "2024-12-31", (ValueError (UNMATCHED +:+ "2024-12-31")).
  split; [|reflexivity].
  apply in_map_iff. exists (Date.mk 2024 12 31).
  split; [reflexivity|]. apply in_dates_of_year. cbn. lia.
Defined.

Lemma generation_deterministic_witness :
  generate Sample.calendar Sample.absolute Sample.joinpath Sample.csv_line 400
    Sample.generator Sample.world =
  generate Sample.calendar_other Sample.absolute Sample.joinpath Sample.csv_line 400
    Sample.generator Sample.world.
Proof.
  apply (generation_deterministic Sample.calendar Sample.calendar_other).
  intros d Hd. apply in_dates_of_year in Hd as [Hy _].
  change (target_year (config Sample.generator)) with 2024 in Hy.
  unfold same_answers, Sample.calendar_other. cbn. rewrite Hy. cbn. auto.
Defined.

(** ** More about the year enumerator *)

Section WholeYearDomain.

(** A loop that ended keeps its result when given more fuel. *)
Lemma loop_more_fuel end_ delta : forall fuel cur acc r,
  whole_year_loop fuel end_ delta cur acc = r -> r <> OutOfFuel ->
  forall extra, whole_year_loop (fuel + extra) end_ delta cur acc = r.
Proof.
  induction fuel as [|fuel IH]; intros cur acc r Hrun Hr extra.
  - cbn in Hrun. congruence.
  - cbn [Nat.add whole_year_loop] in *.
    destruct (Date.le cur end_); [|exact Hrun].
    destruct (Date.add cur delta) as [nxt|e|]; cbn [mbind outcome_bind] in *;
      [apply IH; assumption | exact Hrun | exact Hrun].
Qed.

Lemma get_whole_year_more_fuel fuel y r :
  get_whole_year fuel y = r -> r <> OutOfFuel ->
  forall fuel', (fuel <= fuel')%nat -> get_whole_year fuel' y = r.
Proof.
  unfold get_whole_year. intros Hrun Hr fuel' Hle.
  destruct (Date.new y 1 1) as [b|e|]; cbn [mbind outcome_bind] in *; try exact Hrun.
  destruct (Date.new y 12 31) as [e'|e|]; cbn [mbind outcome_bind] in *; try exact Hrun.
  replace fuel' with (fuel + (fuel' - fuel))%nat by lia.
  by apply loop_more_fuel.
Qed.

Lemma new_out_of_range y :
  -2147483648 <= y < 1 \/ 9999 < y <= 2147483647 ->
  Date.new y 1 1 = Raise (DateFieldError y 1 1).
Proof.
  intros Hy. unfold Date.new.
  destruct (Date.fits_c_int y) eqn:F;
    [|apply not_true_iff_false in F; rewrite fits_c_int_iff in F; lia].
  cbn [negb]. change (Date.fits_c_int 1) with true. cbn [negb].
  destruct (Date.valid (Date.mk y 1 1)) eqn:V; [|reflexivity].
  apply valid_iff in V. cbn in V. lia.
Qed.

Lemma new_overflow y m d :
  y < -2147483648 \/ 2147483647 < y -> Date.new y m d = Raise (IntOverflow y).
Proof.
  intros Hy. unfold Date.new.
  destruct (Date.fits_c_int y) eqn:F; [|reflexivity].
  apply fits_c_int_iff in F. lia.
Qed.

Lemma get_whole_year_out_of_range fuel Y :
  -2147483648 <= Y < 1 \/ 9999 < Y <= 2147483647 ->
  get_whole_year fuel Y = Raise (DateFieldError Y 1 1).
Proof.
  intros Hy. unfold get_whole_year. by rewrite (new_out_of_range Y).
Qed.

Lemma get_whole_year_overflow fuel Y :
  Y < -2147483648 \/ 2147483647 < Y ->
  get_whole_year fuel Y = Raise (IntOverflow Y).
Proof.
  intros Hy. unfold get_whole_year. by rewrite (new_overflow Y 1 1).
Qed.

Lemma get_whole_year_9999 fuel :
  (367 <= fuel)%nat -> get_whole_year fuel 9999 = Raise DateOverflow.
Proof.
  intros Hf. apply (get_whole_year_more_fuel 367); [|discriminate|exact Hf].
  vm_compute. reflexivity.
Qed.

(** X1: [get_whole_year] returns a list exactly for the years 1 to 9998.
    A year outside 1..9999 is refused by the date constructor before the
    loop starts: with its [ValueError] when the year is an int of C, with
    the [OverflowError] of the conversion when it is beyond.  In the year
    9999 the loop raises [OverflowError] when it steps past December 31,
    after all the dates were collected. *)
Theorem get_whole_year_domain (fuel : nat) (Y : Z) :
  (-2147483648 <= Y < 1 \/ 9999 < Y <= 2147483647 ->
   get_whole_year fuel Y = Raise (DateFieldError Y 1 1)) /\
  (Y < -2147483648 \/ 2147483647 < Y ->
   get_whole_year fuel Y = Raise (IntOverflow Y)) /\
  ((367 <= fuel)%nat -> Y = 9999 -> get_whole_year fuel Y = Raise DateOverflow) /\
  ((367 <= fuel)%nat ->
   ((exists days, get_whole_year fuel Y = Return days) <-> 1 <= Y <= 9998)).
Proof.
  split; [apply get_whole_year_out_of_range|].
  split; [apply get_whole_year_overflow|].
  split; [intros Hf ->; by apply get_whole_year_9999|].
  intros Hf. split.
  - intros [days Hdays].
    destruct (Z_lt_le_dec Y (-2147483648)) as [Hmin|Hmin];
      [rewrite get_whole_year_overflow in Hdays by lia; discriminate|].
    destruct (Z_lt_le_dec 2147483647 Y) as [Hmax|Hmax];
      [rewrite get_whole_year_overflow in Hdays by lia; discriminate|].
    destruct (Z_lt_le_dec Y 1) as [Hlo|Hlo];
      [rewrite get_whole_year_out_of_range in Hdays by lia; discriminate|].
    destruct (Z_lt_le_dec 9999 Y) as [Hhi|Hhi];
      [rewrite get_whole_year_out_of_range in Hdays by lia; discriminate|].
    destruct (Z.eq_dec Y 9999) as [E|E];
      [subst Y; rewrite get_whole_year_9999 in Hdays by assumption; discriminate|].
    lia.
  - intros HY. eexists. by apply get_whole_year_returns.
Qed.

Lemma get_whole_year_domain_witness :
  get_whole_year 400 0 = Raise (DateFieldError 0 1 1) /\
  get_whole_year 400 2147483648 = Raise (IntOverflow 2147483648) /\
  get_whole_year 400 9999 = Raise DateOverflow /\
  exists days, get_whole_year 400 1 = Return days.
Proof.
  destruct (get_whole_year_domain 400 0) as (Hout & _ & _ & _).
  destruct (get_whole_year_domain 400 2147483648) as (_ & Hover & _ & _).
  destruct (get_whole_year_domain 400 9999) as (_ & _ & Hmax & _).
  destruct (get_whole_year_domain 400 1) as (_ & _ & _ & Hin).
  split; [apply Hout; lia|]. split; [apply Hover; lia|].
  split; [apply Hmax; [lia|reflexivity]|].
  apply Hin; lia.
Defined.

End WholeYearDomain.

(** ** The order of the printed dates *)

Section TextOrder.

Lemma ascii_compare_digits a b :
  0 <= a <= 9 -> 0 <= b <= 9 ->
  Ascii.compare (digit_char a) (digit_char b) = (a ?= b).
Proof.
  intros Ha. revert b. revert a Ha.
  apply (for_all_between (fun a => forall b, 0 <= b <= 9 ->
           Ascii.compare (digit_char a) (digit_char b) = (a ?= b))).
  repeat constructor;
    apply (for_all_between (fun b => Ascii.compare (digit_char _) (digit_char b) = (_ ?= b)));
    repeat constructor.
Qed.

(** Two printed digits compare as the number they print. *)
Lemma compare_two_digits x y (rest : comparison) :
  0 <= x <= 99 -> 0 <= y <= 99 ->
  match x / 10 ?= y / 10 with
  | Eq => match x mod 10 ?= y mod 10 with Eq => rest | c => c end
  | c => c
  end = match x ?= y with Eq => rest | c => c end.
Proof.
  intros Hx Hy.
  destruct (Z.compare_spec (x / 10) (y / 10));
    destruct (Z.compare_spec (x mod 10) (y mod 10));
    destruct (Z.compare_spec x y); try reflexivity;
    exfalso; Z.div_mod_to_equations; lia.
Qed.

Lemma compare_four_digits x y (rest : comparison) :
  0 <= x <= 9999 -> 0 <= y <= 9999 ->
  match x / 1000 ?= y / 1000 with
  | Eq => match x / 100 mod 10 ?= y / 100 mod 10 with
          | Eq => match x mod 100 / 10 ?= y mod 100 / 10 with
                  | Eq => match x mod 100 mod 10 ?= y mod 100 mod 10 with
                          | Eq => rest
                          | c => c
                          end
                  | c => c
                  end
          | c => c
          end
  | c => c
  end = match x ?= y with Eq => rest | c => c end.
Proof.
  intros Hx Hy.
  rewrite (compare_two_digits (x mod 100) (y mod 100))
    by (Z.div_mod_to_equations; lia).
  replace (x / 1000) with (x / 100 / 10) by (Z.div_mod_to_equations; lia).
  replace (y / 1000) with (y / 100 / 10) by (Z.div_mod_to_equations; lia).
  rewrite (compare_two_digits (x / 100) (y / 100))
    by (Z.div_mod_to_equations; lia).
  destruct (Z.compare_spec (x / 100) (y / 100));
    destruct (Z.compare_spec (x mod 100) (y mod 100));
    destruct (Z.compare_spec x y); try reflexivity;
    exfalso; Z.div_mod_to_equations; lia.
Qed.

(** Printed dates compare, as strings, the way the dates compare. *)
Lemma compare_strftime a b :
  1000 <= Date.year a <= 9999 -> 1 <= Date.month a <= 12 -> 1 <= Date.day a <= 31 ->
  1000 <= Date.year b <= 9999 -> 1 <= Date.month b <= 12 -> 1 <= Date.day b <= 31 ->
  String.compare (strftime a) (strftime b) = Date.compare a b.
Proof.
  intros Hya Hma Hda Hyb Hmb Hdb.
  unfold strftime. rewrite !year_digits_four by lia.
  unfold four_digits, two_digits, Date.compare.
  cbv [String.append]. cbn [String.compare].
  rewrite !ascii_compare_digits by (Z.div_mod_to_equations; lia).
  change (Ascii.compare "-" "-") with Eq. cbn iota.
  rewrite (compare_two_digits (Date.day a) (Date.day b) Eq) by lia.
  rewrite (compare_two_digits (Date.month a) (Date.month b)) by lia.
  rewrite (compare_four_digits (Date.year a) (Date.year b)) by lia.
  destruct (Date.day a ?= Date.day b); reflexivity.
Qed.

Lemma strongly_sorted_map {A B : Type} (R : A -> A -> Prop) (R' : B -> B -> Prop)
    (f : A -> B) (l : list A) :
  (forall a b, In a l -> In b l -> R a b -> R' (f a) (f b)) ->
  StronglySorted R l -> StronglySorted R' (map f l).
Proof.
  intros HR Hs. induction Hs as [|a l Hs IH Hall]; cbn [map]; constructor.
  - apply IH. intros x y Hx Hy. apply HR; by right.
  - rewrite List.Forall_forall in *. intros y (x & <- & Hx)%in_map_iff.
    apply HR; [by left | by right | by apply Hall].
Qed.

(** X2: for every year from 1000 to 9998 the strings that
    [get_whole_year] returns have ten characters each and are strictly
    increasing in the order of strings: sorting them as text is sorting
    them as dates.  (Below the year 1000 the year is printed without
    leading zeros, and the strings are shorter.) *)
Theorem get_whole_year_text_order (fuel : nat) (Y : Z) :
  1000 <= Y <= 9998 -> (367 <= fuel)%nat ->
  exists days,
    get_whole_year fuel Y = Return days /\
    Forall (fun s => String.length s = 10%nat) days /\
    StronglySorted (fun s t => String.compare s t = Lt) days.
Proof.
  intros HY Hf. exists (map strftime (dates_of_year Y)).
  split; [apply get_whole_year_returns; [lia|exact Hf]|]. split.
  - apply List.Forall_forall. intros s (d & <- & [Hy _]%in_dates_of_year)%in_map_iff.
    unfold strftime. rewrite year_digits_four by lia. reflexivity.
  - apply (strongly_sorted_map before); [|apply dates_of_year_sorted; lia].
    intros a b Ha%in_dates_of_year Hb%in_dates_of_year Hab.
    pose proof (days_in_month_bounds Y (Date.month a)).
    pose proof (days_in_month_bounds Y (Date.month b)).
    rewrite compare_strftime by lia.
    unfold before, Date.lt in Hab. by destruct (Date.compare a b).
Qed.

Lemma get_whole_year_text_order_witness :
  exists days,
    get_whole_year 400 2024 = Return days /\
    Forall (fun s => String.length s = 10%nat) days /\
    StronglySorted (fun s t => String.compare s t = Lt) days.
Proof. apply (get_whole_year_text_order 400 2024); lia. Defined.

End TextOrder.

(** ** More about the judge *)

Section JudgeMore.

(** X3: [CalendarGenerator.__init__] returns a generator exactly when each
    of the four roles of [date_types] has an entry with a [code]; the
    generator then holds the configuration as given and a judge with these
    four codes.  Descriptions and further keys play no part. *)
Theorem CalendarGenerator_init_returns (cfg : Config) (g : CalendarGenerator) :
  CalendarGenerator_init cfg = Return g <->
  config g = cfg /\ judge_config (date_judge g) = cfg /\
  (exists entry, date_types cfg !! "workday" = Some entry /\
     entry !! "code" = Some (workday_code (date_judge g))) /\
  (exists entry, date_types cfg !! "weekend" = Some entry /\
     entry !! "code" = Some (weekend_code (date_judge g))) /\
  (exists entry, date_types cfg !! "holiday" = Some entry /\
     entry !! "code" = Some (holiday_code (date_judge g))) /\
  (exists entry, date_types cfg !! "working_holiday" = Some entry /\
     entry !! "code" = Some (working_holiday_code (date_judge g))).
Proof.
  unfold CalendarGenerator_init, DateTypeJudge_init, getitem. split.
  - destruct (date_types cfg !! "workday") as [e1|]; [|discriminate].
    cbn [mbind outcome_bind].
    destruct (e1 !! "code") as [c1|] eqn:C1; [|discriminate].
    cbn [mbind outcome_bind].
    destruct (date_types cfg !! "weekend") as [e2|]; [|discriminate].
    cbn [mbind outcome_bind].
    destruct (e2 !! "code") as [c2|] eqn:C2; [|discriminate].
    cbn [mbind outcome_bind].
    destruct (date_types cfg !! "holiday") as [e3|]; [|discriminate].
    cbn [mbind outcome_bind].
    destruct (e3 !! "code") as [c3|] eqn:C3; [|discriminate].
    cbn [mbind outcome_bind].
    destruct (date_types cfg !! "working_holiday") as [e4|]; [|discriminate].
    cbn [mbind outcome_bind].
    destruct (e4 !! "code") as [c4|] eqn:C4; [|discriminate].
    cbn [mbind outcome_bind mret outcome_ret].
    intros H. inversion H; subst; cbn. repeat split; eauto.
  - destruct g as [c [jc w1 w2 w3 w4]]. cbn.
    intros (-> & -> & (e1 & -> & C1) & (e2 & -> & C2) & (e3 & -> & C3) & (e4 & -> & C4)).
    cbn [mbind outcome_bind]. rewrite C1. cbn [mbind outcome_bind].
    rewrite C2. cbn [mbind outcome_bind]. rewrite C3. cbn [mbind outcome_bind].
    rewrite C4. reflexivity.
Qed.

End JudgeMore.

Lemma CalendarGenerator_init_returns_witness :
  CalendarGenerator_init Sample.config = Return Sample.generator.
Proof.
  apply CalendarGenerator_init_returns.
  split; [reflexivity|]. split; [reflexivity|].
  split; [exists (Sample.entry "0" "workday"); split; vm_compute; reflexivity|].
  split; [exists (Sample.entry "1" "weekend"); split; vm_compute; reflexivity|].
  split; [exists (Sample.entry "2" "holiday"); split; vm_compute; reflexivity|].
  exists (Sample.entry "3" "shifted workday"); split; vm_compute; reflexivity.
Defined.

(** ** More about the SQL statement *)

Section StatementMore.

Variable self : CalendarGenerator.

Lemma escape_quotes_inj r1 r2 : escape_quotes r1 = escape_quotes r2 -> r1 = r2.
Proof.
  intros E.
  assert (H : scan_literal (escape_quotes r1 +:+ String "'" "") =
              scan_literal (escape_quotes r2 +:+ String "'" "")) by (by rewrite E).
  rewrite !scan_literal_escape in H by discriminate. by inversion H.
Qed.

Lemma length_escape_quotes r :
  String.length (escape_quotes r) = (String.length r + count_quotes r)%nat.
Proof.
  induction r as [|c r IH]; [reflexivity|].
  cbn [escape_quotes count_quotes]. destruct (Ascii.eqb c "'");
    cbn [String.length]; rewrite IH; lia.
Qed.

(** X5: the statement tells remarks apart: two remarks that give the same
    statement for the same year, date and type code are the same remark.
    The escaped remark is longer than the remark by one character for each
    apostrophe. *)
Theorem generate_sql_remark_injective (year : Z) (date date_type : string)
    (remark1 remark2 : string) :
  (generate_sql self year date date_type remark1 =
   generate_sql self year date date_type remark2 -> remark1 = remark2) /\
  String.length (escape_quotes remark1) =
    (String.length remark1 + count_quotes remark1)%nat.
Proof.
  split; [|apply length_escape_quotes].
  rewrite !generate_sql_shape. intros E.
  apply (inj (String.app _)) in E. apply (inj (String.app _)) in E.
  injection E as E. apply (inj (String.app _)) in E.
  apply (inj (String.app _)) in E. injection E as E.
  apply (inj (String.app _)) in E. apply (inj (String.app _)) in E.
  injection E as E. apply (inj (String.app _)) in E.
  assert (H : scan_literal (escape_quotes remark1 +:+ String "'" (");" +:+ LF)) =
              scan_literal (escape_quotes remark2 +:+ String "'" (");" +:+ LF)))
    by (by rewrite E).
  rewrite !scan_literal_escape in H by discriminate. by inversion H.
Qed.

Lemma count_char_app c a b :
  count_char c (a +:+ b) = (count_char c a + count_char c b)%nat.
Proof.
  induction a as [|x a IH]; [reflexivity|].
  rewrite app_cons. cbn [count_char]. rewrite IH. by destruct (Ascii.eqb x c).
Qed.

Lemma count_lf_escape r : count_char LF_char (escape_quotes r) = count_char LF_char r.
Proof.
  induction r as [|x r IH]; [reflexivity|]. cbn [escape_quotes].
  destruct (Ascii.eqb x "'") eqn:E.
  - apply Ascii.eqb_eq in E as ->. cbn [count_char].
    change (Ascii.eqb "'" LF_char) with false. cbn iota. exact IH.
  - cbn [count_char]. by rewrite IH.
Qed.

Lemma count_lf_uint d : count_char LF_char (NilEmpty.string_of_uint d) = O.
Proof. induction d; cbn; assumption || reflexivity. Qed.

Lemma count_lf_str_int n : count_char LF_char (str_int n) = O.
Proof.
  assert (H : forall d, count_char LF_char (NilZero.string_of_uint d) = O).
  { intros d. unfold NilZero.string_of_uint.
    destruct d; try reflexivity; apply (count_lf_uint (_ _)). }
  unfold str_int, NilZero.string_of_int.
  destruct (Z.to_int n) as [d|d]; [apply H|].
  cbn [count_char]. change (Ascii.eqb "-" LF_char) with false. apply H.
Qed.

Lemma count_lf_generate_sql (year : Z) (date date_type remark : string) :
  count_char LF_char (generate_sql self year date date_type remark) =
  (1 + count_char LF_char (table_name (config self)) + count_char LF_char date +
   count_char LF_char date_type + count_char LF_char remark)%nat.
Proof.
  assert (Hq : forall x, count_char LF_char (String "'" x) = count_char LF_char x)
    by reflexivity.
  rewrite generate_sql_shape.
  rewrite !count_char_app, !Hq, !count_char_app, !Hq, !count_char_app, !Hq,
    !count_char_app, !Hq, !count_char_app.
  rewrite count_lf_str_int, count_lf_escape.
  change (count_char LF_char "INSERT INTO ") with O.
  change (count_char LF_char " VALUES ('") with O.
  change (count_char LF_char ", '") with O.
  change (count_char LF_char ");") with O.
  change (count_char LF_char LF) with 1%nat.
  lia.
Qed.

(** X6: the statement ends with [);] and a line feed, and holds one line
    feed more than the table name, the date, the type code and the remark
    together: it is one line exactly when none of them holds a line feed
    (line feeds in a remark are written as they are). *)
Theorem generate_sql_line_feeds (year : Z) (date date_type remark : string) :
  (exists body,
     generate_sql self year date date_type remark = body +:+ ");" +:+ LF) /\
  count_char LF_char (generate_sql self year date date_type remark) =
  (1 + count_char LF_char (table_name (config self)) + count_char LF_char date +
   count_char LF_char date_type + count_char LF_char remark)%nat.
Proof.
  split; [|apply count_lf_generate_sql].
  eexists. unfold generate_sql. rewrite <- !str_app_assoc. reflexivity.
Qed.

End StatementMore.

Lemma generate_sql_remark_injective_witness :
  "New Year's Day" = "New Year's Day" /\
  String.length (escape_quotes "New Year's Day") = 15%nat.
Proof.
  destruct (generate_sql_remark_injective Sample.generator 2024 "2024-01-01" "2"
              "New Year's Day" "New Year's Day") as [Hinj Hlen].
  split; [apply Hinj; reflexivity | exact Hlen].
Defined.

(** ** More about a run of [generate] *)

Section RunMore.

Variable calendar : Oracle.
Variable absolute : string -> string.
Variable joinpath : string -> string -> string.
Variable csv_line : list string -> string.
Variable self : CalendarGenerator.

Local Abbreviation year := (target_year (config self)).
Local Abbreviation judged := (judge_date_type (date_judge self) calendar).
Local Abbreviation run := (generate calendar absolute joinpath csv_line).
Local Abbreviation base :=
  (joinpath (absolute (save_path (config self))) (str_int year +:+ "Day")).

(** A date is classified exactly when the calendar has an answer for it. *)
Lemma judged_iff_answered s d :
  strptime s = Return d ->
  (exists class, judged s = Return class) <->
  is_holiday calendar d = true \/ is_workday calendar d = true.
Proof.
  intros Hp. rewrite (judge_date_type_parsed _ _ _ _ Hp).
  destruct (is_holiday calendar d), (is_workday calendar d),
    (snd (get_holiday_detail calendar d)); split;
    try (intros [class H]; discriminate); intros H; eauto;
    destruct H; discriminate.
Qed.

Lemma generate_loop_total items : forall sql_statements df,
  (forall item, In item items -> exists class, judged (snd item) = Return class) ->
  exists sqls' df',
    generate_loop calendar self items sql_statements df = Return (sqls', df').
Proof.
  induction items as [|[index s] items IH]; intros sqls df Hall; cbn [generate_loop].
  - eauto.
  - destruct (Hall (index, s) (or_introl eq_refl)) as [[date_type remark] Hj].
    cbn [snd] in Hj. rewrite Hj. cbn [mbind outcome_bind].
    apply IH. intros item Hin. apply Hall. by right.
Qed.

(** X7: for a target year from 1000 to 9998, the run reaches the saving
    of files exactly when the calendar reports every date of the year as a
    holiday or as a workday; it then returns, with one statement and one
    row for each of the 365 or 366 dates, and writes the two files.
    (Below the year 1000 the first date string is not read back, and the
    run raises whatever the calendar says.) *)
Theorem run_succeeds_iff_answered (fuel : nat) :
  1000 <= year <= 9998 -> (367 <= fuel)%nat ->
  ((exists sql_statements df,
      generate_records calendar fuel self = Return (sql_statements, df)) <->
   (forall d, In d (dates_of_year year) ->
      is_holiday calendar d = true \/ is_workday calendar d = true)) /\
  (forall sql_statements df,
     generate_records calendar fuel self = Return (sql_statements, df) ->
     length sql_statements = (if Date.is_leap year then 366 else 365)%nat /\
     length (rows df) = (if Date.is_leap year then 366 else 365)%nat /\
     forall w, run fuel self w =
               (Return tt,
                _save_files absolute joinpath csv_line self sql_statements df w)).
Proof.
  intros HY Hf.
  assert (Hdates : get_whole_year fuel year = Return (map strftime (dates_of_year year)))
    by (apply get_whole_year_returns; [lia|exact Hf]).
  split; [split|].
  - intros (sqls & df & Hrun) d Hd.
    destruct (generate_records_returns _ _ _ _ _ Hrun)
      as (dates & classes & Hdates' & Hall & _).
    assert (dates = map strftime (dates_of_year year)) as -> by congruence.
    assert (Hin : In (strftime d) (map strftime (dates_of_year year)))
      by (by apply in_map).
    apply list_elem_of_In, list_elem_of_lookup in Hin as [N HN].
    destruct (lookup_zip_rows _ _ _ _ Hall N _ HN) as (class & Hj & _).
    eapply judged_iff_answered; [|eauto].
    apply in_dates_of_year in Hd as (Hy & Hm & Hdd).
    apply strptime_strftime; [apply valid_iff; rewrite Hy; lia | lia].
  - intros Hall. unfold generate_records. rewrite Hdates. cbn [mbind outcome_bind].
    apply generate_loop_total. intros [i s] Hin. cbn [snd].
    apply enumerate_from_snd in Hin.
    destruct (get_whole_year_sound _ _ _ _ Hdates Hin) as (d & _ & Hd & Hp & _).
    eapply judged_iff_answered; [apply Hp; lia | by apply Hall].
  - intros sqls df Hrun.
    destruct (generate_records_returns _ _ _ _ _ Hrun)
      as (dates & classes & Hdates' & Hall & -> & Hrows & _).
    assert (dates = map strftime (dates_of_year year)) as -> by congruence.
    pose proof (length_zip_rows _ _ _ _ Hall) as Hlen.
    rewrite length_map, length_dates_of_year in Hlen.
    split; [by rewrite length_map|]. split.
    + unfold enumerate in Hrows. by rewrite Hrows, length_enumerate_from.
    + intros w. unfold generate. by rewrite Hrun.
Qed.

(** X8: whatever its outcome, a run changes no file other than its [.sql]
    and [.csv] files, and removes no directory. *)
Theorem run_touches_two_files (fuel : nat) (w : World) (path : string) :
  path <> base +:+ ".sql" -> path <> base +:+ ".csv" ->
  files (snd (run fuel self w)) !! path = files w !! path /\
  dirs w ⊆ dirs (snd (run fuel self w)).
Proof.
  intros Hsql Hcsv. unfold generate.
  destruct (generate_records calendar fuel self) as [[sqls df]| |];
    cbn [snd]; [|split; [reflexivity|set_solver]..].
  unfold _save_files, ensure_dir_exists, write_file. cbn [files dirs].
  split; [|set_solver].
  by rewrite !lookup_insert_ne.
Qed.

Lemma generate_loop_first_failure pre : forall start sql_statements df s post e,
  (forall x, In x pre -> exists class, judged x = Return class) ->
  judged s = Raise e ->
  generate_loop calendar self (enumerate_from start (pre ++ s :: post))
    sql_statements df = Raise e.
Proof.
  induction pre as [|x pre IH]; intros start sqls df s post e Hpre Hs;
    cbn [app enumerate_from generate_loop].
  - by rewrite Hs.
  - destruct (Hpre x (or_introl eq_refl)) as [[date_type remark] Hx].
    rewrite Hx. cbn [mbind outcome_bind]. apply IH; [|exact Hs].
    intros y Hy. apply Hpre. by right.
Qed.

(** X9: the run stops at the first date, in calendar order, that fails to
    classify: it raises the error of that date, and writes nothing. *)
Theorem run_first_failure (fuel : nat) (w : World) (pre post : list string)
    (s : string) (e : exn) :
  get_whole_year fuel year = Return (pre ++ s :: post) ->
  (forall x, In x pre -> exists class, judged x = Return class) ->
  judged s = Raise e ->
  run fuel self w = (Raise e, w).
Proof.
  intros Hdates Hpre Hs. unfold generate, generate_records.
  rewrite Hdates. cbn [mbind outcome_bind]. unfold enumerate.
  by rewrite (generate_loop_first_failure pre 0%nat _ _ s post e Hpre Hs).
Qed.

(** X10: with a target year outside 1..9999 the run raises the error of the
    date constructor (its [ValueError] for a year that is an int of C, the
    [OverflowError] of the conversion for a year beyond), and with the year
    9999 the overflow of the step past December 31, in each case whatever
    the calendar says and without writing anything. *)
Theorem run_year_out_of_range (fuel : nat) (w : World) :
  (-2147483648 <= year < 1 \/ 9999 < year <= 2147483647 ->
   run fuel self w = (Raise (DateFieldError year 1 1), w)) /\
  (year < -2147483648 \/ 2147483647 < year ->
   run fuel self w = (Raise (IntOverflow year), w)) /\
  ((367 <= fuel)%nat -> year = 9999 -> run fuel self w = (Raise DateOverflow, w)).
Proof.
  split; [|split].
  - intros Hy. unfold generate, generate_records.
    by rewrite get_whole_year_out_of_range.
  - intros Hy. unfold generate, generate_records.
    by rewrite get_whole_year_overflow.
  - intros Hf Hy. unfold generate, generate_records.
    rewrite Hy, get_whole_year_9999 by exact Hf. reflexivity.
Qed.

Lemma in_zip_rows (dates : list string) (classes : list (string * string)) :
  Forall2 (fun s class => judged s = Return class) dates classes ->
  forall r, In r (zip_with (row_for self) dates classes) ->
  exists s class, r = row_for self s class /\ In s dates /\ judged s = Return class.
Proof.
  induction 1 as [|s class dates classes Hj Hall IH]; intros r; cbn [zip_with];
    [intros []|].
  intros [<- | Hr].
  - exists s, class. split; [reflexivity|]. split; [by left | exact Hj].
  - destruct (IH r Hr) as (s' & class' & -> & Hin & Hj').
    exists s', class'. split; [reflexivity|]. split; [by right | exact Hj'].
Qed.

Lemma enumerate_from_labels {A : Type} (xs : list A) : forall start,
  map fst (enumerate_from start xs) = seq start (length xs).
Proof.
  induction xs as [|x xs IH]; intros start; [reflexivity|].
  cbn [enumerate_from map length seq fst]. by rewrite IH.
Qed.

(** X11: in a run that reaches the saving of files, the labels of the rows
    are 0, 1, 2, ... in this order, and every row holds the target year, a
    date string that reads as a date of that year, one of the four
    configured codes, and a remark that is empty unless the code is the
    holiday code or the make-up workday code. *)
Theorem rows_are_classified (fuel : nat) (sql_statements : list string)
    (df : DataFrame) :
  generate_records calendar fuel self = Return (sql_statements, df) ->
  map fst (rows df) = seq 0 (length (rows df)) /\
  forall label row, In (label, row) (rows df) ->
    YEAR row = year /\
    (exists d, strptime (CALENDAR_DATE row) = Return d /\ Date.year d = year) /\
    In (DATE_TYPE row)
       [workday_code (date_judge self); weekend_code (date_judge self);
        holiday_code (date_judge self); working_holiday_code (date_judge self)] /\
    (COMMENTS row <> "" ->
     DATE_TYPE row = holiday_code (date_judge self) \/
     DATE_TYPE row = working_holiday_code (date_judge self)).
Proof.
  intros Hrun.
  destruct (generate_records_returns _ _ _ _ _ Hrun)
    as (dates & classes & Hdates & Hall & _ & Hrows & _).
  unfold enumerate in Hrows. split.
  - by rewrite Hrows, enumerate_from_labels, length_enumerate_from.
  - intros label row Hin. rewrite Hrows in Hin. apply enumerate_from_snd in Hin.
    destruct (in_zip_rows _ _ Hall _ Hin) as (s & [date_type remark] & -> & Hs & Hj).
    destruct (get_whole_year_sound _ _ _ _ Hdates Hs) as (d & _ & Hd & _ & Hinv).
    destruct (strptime s) as [d'| |] eqn:Hp;
      [|unfold judge_date_type in Hj; rewrite Hp in Hj; discriminate..].
    destruct (Hinv d' eq_refl) as [-> _].
    cbn [row_for YEAR CALENDAR_DATE DATE_TYPE COMMENTS fst snd].
    split; [reflexivity|].
    split; [exists d; split; [exact Hp | by apply in_dates_of_year in Hd as [? _]]|].
    rewrite (judge_date_type_parsed _ _ _ _ Hp) in Hj.
    destruct (is_holiday calendar d), (is_workday calendar d),
      (snd (get_holiday_detail calendar d));
      inversion Hj; subst; cbn [In]; split; auto; intros Hne; auto; contradiction.
Qed.

(** X12: a second run on the world that a run left gives the same outcome
    and leaves that world as it is: the files are written over, not added to. *)
Theorem run_again_changes_nothing (fuel : nat) (w : World) :
  run fuel self (snd (run fuel self w)) = run fuel self w.
Proof.
  unfold generate.
  destruct (generate_records calendar fuel self) as [[sqls df]| |];
    cbn [snd]; [|reflexivity..].
  f_equal. unfold _save_files, ensure_dir_exists, write_file. cbn [files dirs].
  f_equal.
  - by rewrite (assoc_L (∪)), union_idemp_L.
  - apply map_eq. intros k.
    destruct (decide (k = base +:+ ".csv")) as [->|Hcsv];
      [by rewrite !lookup_insert_eq|].
    rewrite !(lookup_insert_ne _ (base +:+ ".csv")) by congruence.
    destruct (decide (k = base +:+ ".sql")) as [->|Hsql];
      [by rewrite !lookup_insert_eq|].
    by rewrite !lookup_insert_ne by congruence.
Qed.

End RunMore.

Lemma run_succeeds_iff_answered_witness :
  exists sql_statements df,
    generate_records Sample.calendar 400 Sample.generator =
      Return (sql_statements, df) /\
    length sql_statements = 366%nat /\ length (rows df) = 366%nat.
Proof.
  destruct (run_succeeds_iff_answered Sample.calendar Sample.absolute Sample.joinpath
              Sample.csv_line Sample.generator 400 ltac:(cbn; lia) ltac:(lia))
    as [Hiff Hlen].
  destruct (proj2 Hiff) as (sqls & df & Hrun).
  - intros d _. cbn. destruct (Sample.new_years_day d || Sample.day_off d); auto.
  - exists sqls, df. split; [exact Hrun|].
    destruct (Hlen sqls df Hrun) as (H1 & H2 & _). split; [exact H1 | exact H2].
Defined.

Lemma run_touches_two_files_witness :
  files (snd (generate Sample.calendar Sample.absolute Sample.joinpath
                Sample.csv_line 400 Sample.generator Sample.world))
    !! "/srv/notes.txt" = None.
Proof.
  destruct (run_touches_two_files Sample.calendar Sample.absolute Sample.joinpath
              Sample.csv_line Sample.generator 400 Sample.world "/srv/notes.txt")
    as (Hfile & _).
  - intros H. vm_compute in H. discriminate.
  - intros H. vm_compute in H. discriminate.
  - rewrite Hfile. reflexivity.
Defined.

Lemma run_first_failure_witness :
  generate Scenario.calendar_two_gaps Sample.absolute Sample.joinpath Sample.csv_line
    400 Sample.generator Sample.world =
  (Raise (ValueError (UNMATCHED +:+ "2024-01-03")), Sample.world).
Proof.
  apply (run_first_failure Scenario.calendar_two_gaps Sample.absolute Sample.joinpath
           Sample.csv_line Sample.generator 400 Sample.world
           ["2024-01-01"; "2024-01-02"]
           (skipn 3 (map strftime (dates_of_year 2024))) "2024-01-03").
  - vm_compute. reflexivity.
  - intros x [<- | [<- | []]]; eexists; vm_compute; reflexivity.
  - vm_compute. reflexivity.
Defined.

Lemma run_year_out_of_range_witness :
  generate Sample.calendar Sample.absolute Sample.joinpath Sample.csv_line 400
    Scenario.generator_year_10000 Sample.world =
  (Raise (DateFieldError 10000 1 1), Sample.world).
Proof.
  apply (run_year_out_of_range Sample.calendar Sample.absolute Sample.joinpath
           Sample.csv_line Scenario.generator_year_10000 400 Sample.world).
  cbn. lia.
Defined.

Lemma rows_are_classified_witness :
  exists sql_statements df,
    generate_records Sample.calendar 400 Sample.generator =
      Return (sql_statements, df) /\
    map fst (rows df) = seq 0 (length (rows df)).
Proof.
  destruct sample_run_returns as (sqls & df & Hrun).
  exists sqls, df. split; [exact Hrun|].
  apply (rows_are_classified Sample.calendar Sample.generator 400 sqls df Hrun).
Defined.

(** ** The configuration loader *)

Section Loader.

(** Taking apart a call of [load_config] that ended. *)
Ltac load_cases H :=
  cbv [load_config subscript and_then] in H;
  repeat match type of H with
         | context [match ?x with _ => _ end] =>
             first [is_var x | match x with _ !! _ => idtac end];
             destruct x eqn:?; try discriminate H
         end.

(** X13: [load_config] returns a configuration exactly when the document
    is a mapping whose [database] section is a mapping with [table_name],
    whose [generation] section is a mapping with [target_year] and
    [save_path], and which has a [date_types] key; the four fields are the
    values found there, of whatever kind.  Nothing is asked of the value
    under [date_types]: its roles are not looked at. *)
Theorem load_config_returns (config_data : yaml) (loaded : LoadedConfig) :
  load_config (Parsed config_data) = inr loaded <->
  exists top database generation,
    config_data = YMap top /\
    top !! "database" = Some (YMap database) /\
    database !! "table_name" = Some (loaded_table_name loaded) /\
    top !! "generation" = Some (YMap generation) /\
    generation !! "target_year" = Some (loaded_target_year loaded) /\
    generation !! "save_path" = Some (loaded_save_path loaded) /\
    top !! "date_types" = Some (loaded_date_types loaded).
Proof.
  split.
  - intros H. load_cases H. inversion H; subst. cbn. eauto 10.
  - intros (top & database & generation & -> & H1 & H2 & H3 & H4 & H5 & H6).
    destruct loaded as [tn ty sp dt]. cbn in *.
    cbv [load_config subscript and_then].
    rewrite H1, H2, H3, H4, H5, H6. reflexivity.
Qed.

(** X14: when [load_config] raises, it is [FileNotFoundError] for a
    missing file, [YAMLError] for a file that does not parse, the
    exception of opening or reading the file as it was raised when no
    handler catches it, [TypeError] when the document, its [database]
    section or its [generation] section is no mapping, or the [KeyError]
    of one of the six keys [database], [table_name], [generation],
    [target_year], [save_path], [date_types], a key that is absent from
    the document or from its section; never a role key of [date_types]. *)
Theorem load_config_errors (src : source) (e : load_exn) :
  load_config src = inl e ->
  (src = NoSuchFile /\ e = FileNotFoundError) \/
  (src = Malformed /\ e = YAMLError) \/
  (exists exception, src = Failed exception /\ e = Uncaught exception) \/
  exists config_data, src = Parsed config_data /\
    ((e = TypeError /\
      ((forall top, config_data <> YMap top) \/
       exists top section, config_data = YMap top /\
         (top !! "database" = Some section \/ top !! "generation" = Some section) /\
         forall entries, section <> YMap entries)) \/
     (exists top, config_data = YMap top /\
        ((e = MissingKey "database" /\ top !! "database" = None) \/
         (e = MissingKey "generation" /\ top !! "generation" = None) \/
         (e = MissingKey "date_types" /\ top !! "date_types" = None) \/
         (exists database, top !! "database" = Some (YMap database) /\
            e = MissingKey "table_name" /\ database !! "table_name" = None) \/
         (exists generation, top !! "generation" = Some (YMap generation) /\
            ((e = MissingKey "target_year" /\ generation !! "target_year" = None) \/
             (e = MissingKey "save_path" /\ generation !! "save_path" = None)))))).
Proof.
  intros H. destruct src as [| |exception|config_data].
  - left. by inversion H.
  - right. left. by inversion H.
  - right. right. left. exists exception. by inversion H.
  - right. right. right. exists config_data. split; [reflexivity|].
    load_cases H; inversion H; subst;
      first
        [ left; split; [reflexivity|]; left; discriminate
        | left; split; [reflexivity|]; right; do 2 eexists;
          split; [reflexivity|]; split; [eauto|discriminate]
        | right; eexists; split; [reflexivity|]; eauto 12 ].
Qed.

End Loader.

Lemma load_config_returns_witness :
  load_config (Parsed Scenario.document) =
  inr (mkLoadedConfig (YStr "WORK_CALENDAR") (YInt 2024) (YStr "./output")
         (YMap (<["workday" := Scenario.yaml_entry "0" "workday"]> ∅))).
Proof.
  apply load_config_returns. do 3 eexists.
  split; [reflexivity|]. repeat split; vm_compute; reflexivity.
Defined.

Lemma load_config_errors_witness :
  load_config (Parsed Scenario.document_without_save_path) =
    inl (MissingKey "save_path") /\
  exists exception,
    Failed "UnicodeDecodeError" = Failed exception /\
    Uncaught "UnicodeDecodeError" = Uncaught exception.
Proof.
  split.
  - destruct (load_config (Parsed Scenario.document_without_save_path))
      as [e|loaded] eqn:E; [|vm_compute in E; discriminate].
    destruct (load_config_errors _ _ E)
      as [[H _] | [[H _] | [(name & H & _) | (doc & Hdoc & Hcases)]]];
      try discriminate.
    vm_compute in E. congruence.
  - destruct (load_config_errors (Failed "UnicodeDecodeError")
                (Uncaught "UnicodeDecodeError") eq_refl)
      as [[H _] | [[H _] | [H | (doc & H & _)]]]; try discriminate.
    exact H.
Defined.

(** ** The SQL file of a run *)

Section SqlFile.

Variable calendar : Oracle.
Variable self : CalendarGenerator.

Local Abbreviation year := (target_year (config self)).
Local Abbreviation judged := (judge_date_type (date_judge self) calendar).
Local Abbreviation codes :=
  [workday_code (date_judge self); weekend_code (date_judge self);
   holiday_code (date_judge self); working_holiday_code (date_judge self)].

Lemma digit_char_plain k :
  0 <= k <= 9 ->
  Ascii.eqb (digit_char k) "'" = false /\ Ascii.eqb (digit_char k) LF_char = false.
Proof.
  revert k. apply (for_all_between (fun k =>
    Ascii.eqb (digit_char k) "'" = false /\ Ascii.eqb (digit_char k) LF_char = false)).
  repeat constructor.
Qed.

(** A printed date holds neither an apostrophe nor a line feed. *)
Lemma strftime_plain d :
  0 <= Date.year d <= 9999 -> 1 <= Date.month d <= 12 -> 1 <= Date.day d <= 31 ->
  count_quotes (strftime d) = O /\ count_char LF_char (strftime d) = O.
Proof.
  intros Hy Hm Hd. unfold strftime, year_digits.
  destruct (Z.ltb_spec (Date.year d) 10); [|
    destruct (Z.ltb_spec (Date.year d) 100); [|
      destruct (Z.ltb_spec (Date.year d) 1000)]];
    unfold four_digits, two_digits;
    cbv [String.append]; cbn [count_quotes count_char];
  repeat match goal with
         | |- context [Ascii.eqb (digit_char ?k) _] =>
             let H1 := fresh in
             let H2 := fresh in
             destruct (digit_char_plain k) as [H1 H2];
             [Z.div_mod_to_equations; lia|]; rewrite ?H1, ?H2; clear H1 H2
         end;
  split; reflexivity.
Qed.

(** The class of a date string is a configured code with an empty remark
    or with the name that the calendar gives. *)
Lemma judged_class s d date_type remark :
  strptime s = Return d -> judged s = Return (date_type, remark) ->
  In date_type codes /\
  (remark = "" \/ snd (get_holiday_detail calendar d) = Some remark).
Proof.
  intros Hp. rewrite (judge_date_type_parsed _ _ _ _ Hp).
  destruct (is_holiday calendar d), (is_workday calendar d),
    (snd (get_holiday_detail calendar d));
    intros H; inversion H; subst; cbn [In]; auto 10.
Qed.

Lemma enumerate_from_values {A : Type} (xs : list A) : forall start,
  map snd (enumerate_from start xs) = xs.
Proof.
  induction xs as [|x xs IH]; intros start; [reflexivity|].
  cbn [enumerate_from map snd]. by rewrite IH.
Qed.

(** The rows of a run, with the date and the class behind each. *)
Lemma run_rows fuel sql_statements df :
  generate_records calendar fuel self = Return (sql_statements, df) ->
  sql_statements = map (statement_of_row self) (map snd (rows df)) /\
  forall row, In row (map snd (rows df)) ->
    exists d, YEAR row = year /\ CALENDAR_DATE row = strftime d /\
      In d (dates_of_year year) /\ In (DATE_TYPE row) codes /\
      (COMMENTS row = "" \/ snd (get_holiday_detail calendar d) = Some (COMMENTS row)).
Proof.
  intros Hrun.
  destruct (generate_records_returns _ _ _ _ _ Hrun)
    as (dates & classes & Hdates & Hall & -> & Hrows & _).
  assert (Hsnd : map snd (rows df) = zip_with (row_for self) dates classes)
    by (rewrite Hrows; apply enumerate_from_values).
  rewrite Hsnd. split; [reflexivity|].
  intros row Hrow.
  destruct (in_zip_rows _ _ _ _ Hall _ Hrow) as (s & [date_type remark] & -> & Hs & Hj).
  destruct (get_whole_year_sound _ _ _ _ Hdates Hs) as (d & -> & Hd & _ & Hinv).
  destruct (strptime (strftime d)) as [d'| |] eqn:Hp;
    [|unfold judge_date_type in Hj; rewrite Hp in Hj; discriminate..].
  destruct (Hinv d' eq_refl) as [-> _].
  destruct (judged_class _ _ _ _ Hp Hj) as [Hcode Hremark].
  exists d. cbn [row_for YEAR CALENDAR_DATE DATE_TYPE COMMENTS fst snd]. auto.
Qed.

Lemma read_insert_plain yr date date_type remark :
  count_quotes date = O -> count_quotes date_type = O ->
  read_insert (table_name (config self)) (generate_sql self yr date date_type remark) =
  Some [str_int yr; date; date_type; remark].
Proof.
  intros Hdate Htype. rewrite generate_sql_shape. unfold read_insert.
  rewrite strip_prefix_app. cbn [mbind option_bind].
  rewrite scan_literal_plain; [|apply count_quotes_str_int|discriminate].
  cbn [mbind option_bind]. rewrite strip_prefix_app. cbn [mbind option_bind].
  rewrite scan_literal_plain; [|assumption|discriminate].
  cbn [mbind option_bind]. rewrite strip_prefix_app. cbn [mbind option_bind].
  rewrite scan_literal_plain; [|assumption|discriminate].
  cbn [mbind option_bind]. rewrite strip_prefix_app. cbn [mbind option_bind].
  rewrite scan_literal_escape by discriminate.
  cbn [mbind option_bind]. by rewrite String.eqb_refl.
Qed.

Lemma date_fields_bounded y d :
  In d (dates_of_year y) -> 1 <= y <= 9999 ->
  0 <= Date.year d <= 9999 /\ 1 <= Date.month d <= 12 /\ 1 <= Date.day d <= 31.
Proof.
  intros (Hy & Hm & Hd)%in_dates_of_year HY.
  pose proof (days_in_month_bounds y (Date.month d)). lia.
Qed.

Lemma get_whole_year_range fuel y days :
  get_whole_year fuel y = Return days -> days <> [] -> 1 <= y <= 9999.
Proof.
  unfold get_whole_year. intros H _.
  destruct (Date.new y 1 1) as [b| |] eqn:N; [|discriminate..].
  apply new_returns in N as [-> V].
  apply valid_iff in V. cbn in V. lia.
Qed.

Lemma Forall2_map_self {A B : Type} (f : A -> B) (P : B -> A -> Prop) (l : list A) :
  (forall x, In x l -> P (f x) x) -> Forall2 P (map f l) l.
Proof.
  induction l as [|x l IH]; intros H; cbn [map]; constructor.
  - apply H. by left.
  - apply IH. intros y Hy. apply H. by right.
Qed.

(** X15: when the four configured codes hold no apostrophe, every
    statement of a run that reaches the saving of files reads back as the
    four values of its row: the year, the date, the type code and the
    remark, whatever apostrophes the remark holds. *)
Theorem run_statements_read_back (fuel : nat) (sql_statements : list string)
    (df : DataFrame) :
  (forall code, In code codes -> count_quotes code = O) ->
  generate_records calendar fuel self = Return (sql_statements, df) ->
  Forall2 (fun stmt row =>
             read_insert (table_name (config self)) stmt =
             Some [str_int (YEAR row); CALENDAR_DATE row; DATE_TYPE row; COMMENTS row])
          sql_statements (map snd (rows df)).
Proof.
  intros Hcodes Hrun.
  assert (Hyear : forall row, In row (map snd (rows df)) -> 1 <= year <= 9999).
  { intros row Hrow. unfold generate_records in Hrun.
    destruct (get_whole_year fuel year) as [dates| |] eqn:Hdates; try discriminate.
    apply (get_whole_year_range _ _ _ Hdates). intros ->.
    cbn in Hrun. inversion Hrun; subst. destruct Hrow. }
  destruct (run_rows _ _ _ Hrun) as [-> Hrows].
  apply Forall2_map_self. intros row Hrow.
  destruct (Hrows row Hrow) as (d & _ & Hdate & Hd & Hcode & _).
  destruct (date_fields_bounded _ _ Hd (Hyear row Hrow)) as (? & ? & ?).
  unfold statement_of_row. apply read_insert_plain.
  - rewrite Hdate. by apply strftime_plain.
  - by apply Hcodes.
Qed.

Lemma count_lf_concat (ss : list string) :
  (forall s, In s ss -> count_char LF_char s = 1%nat) ->
  count_char LF_char (concat_str ss) = length ss.
Proof.
  induction ss as [|s ss IH]; intros H; [reflexivity|].
  cbn [concat_str length]. rewrite count_char_app, (H s (or_introl eq_refl)), IH;
    [reflexivity|]. intros t Ht. apply H. by right.
Qed.

(** X16: when the table name, the four codes and the names that the
    calendar gives hold no line feed, the SQL file of a run that reaches
    the saving of files has exactly one line feed for each row: one
    statement on each line. *)
Theorem run_sql_file_lines (fuel : nat) (sql_statements : list string)
    (df : DataFrame) :
  count_char LF_char (table_name (config self)) = O ->
  (forall code, In code codes -> count_char LF_char code = O) ->
  (forall d name, snd (get_holiday_detail calendar d) = Some name ->
     count_char LF_char name = O) ->
  generate_records calendar fuel self = Return (sql_statements, df) ->
  count_char LF_char (concat_str sql_statements) = length (rows df).
Proof.
  intros Htable Hcodes Hnames Hrun.
  assert (Hyear : forall row, In row (map snd (rows df)) -> 1 <= year <= 9999).
  { intros row Hrow. unfold generate_records in Hrun.
    destruct (get_whole_year fuel year) as [dates| |] eqn:Hdates; try discriminate.
    apply (get_whole_year_range _ _ _ Hdates). intros ->.
    cbn in Hrun. inversion Hrun; subst. destruct Hrow. }
  destruct (run_rows _ _ _ Hrun) as [-> Hrows].
  rewrite count_lf_concat; [by rewrite !length_map|].
  intros stmt (row & <- & Hrow)%in_map_iff.
  destruct (Hrows row Hrow) as (d & _ & Hdate & Hd & Hcode & Hremark).
  destruct (date_fields_bounded _ _ Hd (Hyear row Hrow)) as (? & ? & ?).
  unfold statement_of_row.
  rewrite count_lf_generate_sql.
  rewrite Htable, Hdate, (proj2 (strftime_plain d ltac:(lia) ltac:(lia) ltac:(lia))),
    (Hcodes _ Hcode).
  destruct Hremark as [-> | Hname]; [reflexivity|].
  by rewrite (Hnames _ _ Hname).
Qed.

End SqlFile.

Lemma run_statements_read_back_witness :
  exists sql_statements df,
    generate_records Sample.calendar 400 Sample.generator =
      Return (sql_statements, df) /\
    Forall2 (fun stmt row =>
               read_insert "WORK_CALENDAR" stmt =
               Some [str_int (YEAR row); CALENDAR_DATE row; DATE_TYPE row;
                     COMMENTS row])
            sql_statements (map snd (rows df)).
Proof.
  destruct sample_run_returns as (sqls & df & Hrun).
  exists sqls, df. split; [exact Hrun|].
  apply (run_statements_read_back Sample.calendar Sample.generator 400 sqls df);
    [|exact Hrun].
  intros code [<- | [<- | [<- | [<- | []]]]]; reflexivity.
Defined.

Lemma run_sql_file_lines_witness :
  exists sql_statements df,
    generate_records Sample.calendar 400 Sample.generator =
      Return (sql_statements, df) /\
    count_char LF_char (concat_str sql_statements) = length (rows df).
Proof.
  destruct sample_run_returns as (sqls & df & Hrun).
  exists sqls, df. split; [exact Hrun|].
  apply (run_sql_file_lines Sample.calendar Sample.generator 400 sqls df);
    [reflexivity | | | exact Hrun].
  - intros code [<- | [<- | [<- | [<- | []]]]]; reflexivity.
  - intros d name. cbn.
    destruct (Sample.new_years_day d);
      [|destruct ((Date.month d =? 2) && (Date.day d =? 4))];
      cbn; intros H; inversion H; reflexivity.
Defined.
